(** * Emergent Terminal: the shared-session multiplexer of [src/server.ts]

    A shallow embedding of the TMUX-LITE part of the server (the global
    [SHARED_SESSION], its output buffer, the client registry and the
    WebSocket / pty event handlers) and the properties of it that the
    specification states.

    Conventions of the embedding:
    - JavaScript object identity (a [WebSocket], a spawned [IPty]) is a
      natural number;
    - every handler is a computation in the monad [M]: it reads and writes
      the [World], may complete abruptly with a thrown error, and emits the
      list of externally visible actions ([Effect]) it performed, in order;
    - whatever the server reads from outside (the result of [JSON.parse],
      the random bytes, whether [pty.spawn] throws) travels with the event
      that triggers the handler. *)

From Stdlib Require Import List String Ascii ZArith Arith Bool Lia.
Import ListNotations.

Set Warnings "-abstract-large-number".

(** ** JavaScript values and the few operators the handlers use *)

#[warnings="-register-all"]
Inductive JsVal : Type :=
| JUndefined
| JNull
| JBool (b : bool)
| JNum (n : Z)
| JStr (s : string)
| JArr (items : list JsVal)
| JObj (fields : list (string * JsVal)).

(** ToBoolean. *)
Definition truthy (v : JsVal) : bool :=
  match v with
  | JUndefined | JNull => false
  | JBool b => b
  | JNum n => negb (n =? 0)%Z
  | JStr s => negb (s =? "")%string
  | JArr _ | JObj _ => true
  end.

(** [a || b]. *)
Definition js_or (a b : JsVal) : JsVal := if truthy a then a else b.

(** [v === "s"] for a string literal. *)
Definition strict_eq_str (v : JsVal) (s : string) : bool :=
  match v with
  | JStr t => (t =? s)%string
  | _ => false
  end.

Fixpoint lookup_field (k : string) (fs : list (string * JsVal)) : JsVal :=
  match fs with
  | [] => JUndefined
  | (k', v) :: rest => if (k' =? k)%string then v else lookup_field k rest
  end.

Inductive JsError : Type :=
| SyntaxError            (* JSON.parse on text that is not JSON *)
| TypeError              (* property read on null or undefined *)
| SpawnError             (* pty.spawn could not launch the shell *)
| PtyError               (* pty.write / pty.resize rejected the call *)
| SocketError.           (* ws.send on a socket that is still CONNECTING *)

(** ** Arrays: [push], [slice(-n)], [join("")] *)

Definition push {A} (l : list A) (x : A) : list A := l ++ [x].

(** [arr.slice(-n)]: the last [n] elements; [slice(-0)] is [slice(0)], the
    whole array. *)
Definition slice_last {A} (n : nat) (l : list A) : list A :=
  if n =? 0 then l else skipn (List.length l - n) l.

Definition join (l : list string) : string := String.concat "" l.

(** ** The shared session *)

Definition WebSocket := nat.
Definition IPty := nat.

Inductive ReadyState : Type := CONNECTING | OPEN | CLOSING | CLOSED.

Definition is_open (r : ReadyState) : bool :=
  match r with OPEN => true | _ => false end.

(** [interface SharedSession]; [createdAt] is written once and never read,
    it is left out.  [clients] is a JavaScript [Set]: insertion ordered,
    without duplicates. *)
Record SharedSession : Type := mkSession {
  pty : option IPty;
  clients : list WebSocket;
  outputBuffer : list string;
  maxBufferLines : nat;
  sessionId : string
}.

Definition set_pty (p : option IPty) (s : SharedSession) : SharedSession :=
  mkSession p (clients s) (outputBuffer s) (maxBufferLines s) (sessionId s).
Definition set_clients (c : list WebSocket) (s : SharedSession) : SharedSession :=
  mkSession (pty s) c (outputBuffer s) (maxBufferLines s) (sessionId s).
Definition set_outputBuffer (b : list string) (s : SharedSession) : SharedSession :=
  mkSession (pty s) (clients s) b (maxBufferLines s) (sessionId s).
Definition set_sessionId (i : string) (s : SharedSession) : SharedSession :=
  mkSession (pty s) (clients s) (outputBuffer s) (maxBufferLines s) i.

(** [Set.prototype.add] and [Set.prototype.delete]. *)
Definition set_add (x : WebSocket) (l : list WebSocket) : list WebSocket :=
  if existsb (Nat.eqb x) l then l else l ++ [x].
Definition set_delete (x : WebSocket) (l : list WebSocket) : list WebSocket :=
  filter (fun y => negb (y =? x)) l.

(** The session as the module initialises it; [id0] stands for the random
    identifier drawn at load time. *)
Definition SHARED_SESSION_init (id0 : string) : SharedSession :=
  mkSession None [] [] 5000 id0.

(** ** Messages, effects, the world *)

(** The objects the server passes to [JSON.stringify] before [ws.send];
    [isNew] is [false] where the field is absent. *)
Inductive ServerMsg : Type :=
| MsgOutput (data : string)
| MsgSession (id : string) (shared : bool) (nclients : nat) (isNew : bool)
| MsgExit (code : Z).

Inductive LogLine : Type :=
| LogClientConnected (total : nat)
| LogJoinExisting (chunks : nat)
| LogCreatingShared
| LogNewShared
| LogClientDisconnected (remaining : nat)
| LogMessageError (e : JsError).

Inductive Effect : Type :=
| WsSend (ws : WebSocket) (m : ServerMsg)      (* payload handed to an open socket *)
| WsCloseCall (ws : WebSocket) (code : nat)    (* ws.close(code, reason) *)
| PtySpawn (p : IPty) (cols rows : JsVal)
| PtyKill (p : IPty)
| PtyWrite (p : IPty) (data : JsVal)
| PtyResize (p : IPty) (cols rows : JsVal)
| Console (l : LogLine).

(** What a handler reads from outside while it runs. *)
Record Env : Type := mkEnv {
  randomHex : string;       (* crypto.randomBytes(8).toString("hex") *)
  spawnThrows : bool;       (* pty.spawn throws instead of returning *)
  ptyCallThrows : bool      (* pty.write / pty.resize throws *)
}.

(** The server's mutable state together with the state of the objects it
    holds references to: the ready state of every socket, the handles
    handed out by [pty.spawn] so far, and the processes that were spawned
    and have not exited yet. *)
Record World : Type := mkWorld {
  SHARED_SESSION : SharedSession;
  readyState : WebSocket -> ReadyState;
  spawned : nat;
  running : list IPty
}.

Definition with_session (f : SharedSession -> SharedSession) (w : World) : World :=
  mkWorld (f (SHARED_SESSION w)) (readyState w) (spawned w) (running w).

(** ** The handler monad: state, exceptions, emitted effects *)

Inductive Completion (A : Type) : Type :=
| Normal (a : A)
| Thrown (e : JsError).
Arguments Normal {A} a.
Arguments Thrown {A} e.

Definition M (A : Type) : Type := World -> Completion A * World * list Effect.

Definition ret {A} (a : A) : M A := fun w => (Normal a, w, []).

Definition bind {A B} (m : M A) (k : A -> M B) : M B :=
  fun w =>
    match m w with
    | (Normal a, w1, e1) =>
        match k a w1 with
        | (r, w2, e2) => (r, w2, e1 ++ e2)
        end
    | (Thrown e, w1, e1) => (Thrown e, w1, e1)
    end.

Notation "x <- m ;; k" := (bind m (fun x => k))
  (at level 61, m at next level, right associativity).
Notation "m ;;; k" := (bind m (fun _ => k))
  (at level 61, right associativity).

Definition throw {A} (e : JsError) : M A := fun w => (Thrown e, w, []).

(** [try { body } catch (err) { handler(err) }]: what the body did before it
    threw stays done. *)
Definition try_catch (body : M unit) (handler : JsError -> M unit) : M unit :=
  fun w =>
    match body w with
    | (Normal a, w1, e1) => (Normal a, w1, e1)
    | (Thrown e, w1, e1) =>
        match handler e w1 with
        | (r, w2, e2) => (r, w2, e1 ++ e2)
        end
    end.

Definition emit (e : Effect) : M unit := fun w => (Normal tt, w, [e]).
Definition get_session : M SharedSession := fun w => (Normal (SHARED_SESSION w), w, []).
Definition modify_session (f : SharedSession -> SharedSession) : M unit :=
  fun w => (Normal tt, with_session f w, []).
Definition console (l : LogLine) : M unit := emit (Console l).

(** [collection.forEach(f)]: in order, abandoned at the first throw. *)
Fixpoint forEach {A} (l : list A) (f : A -> M unit) : M unit :=
  match l with
  | [] => ret tt
  | x :: rest => f x ;;; forEach rest f
  end.

(** [ws.send(payload)] of the ws library, called without a callback: throws
    on a socket that is still CONNECTING, transmits on an OPEN one, and
    transmits nothing on a CLOSING or CLOSED one. *)
Definition ws_send (ws : WebSocket) (m : ServerMsg) : M unit :=
  fun w =>
    match readyState w ws with
    | CONNECTING => (Thrown SocketError, w, [])
    | OPEN => (Normal tt, w, [WsSend ws m])
    | CLOSING | CLOSED => (Normal tt, w, [])
    end.

(** [if (client.readyState === WebSocket.OPEN) client.send(payload)]. *)
Definition send_if_open (m : ServerMsg) (client : WebSocket) : M unit :=
  fun w => if is_open (readyState w client) then ws_send client m w else ret tt w.

(** [data.k] for a value [data]. *)
Definition get_prop (data : JsVal) (k : string) : M JsVal :=
  match data with
  | JUndefined | JNull => throw TypeError
  | JObj fs => ret (lookup_field k fs)
  | _ => ret JUndefined
  end.

(** ** The functions of the TMUX-LITE block *)

Definition broadcastToClients (message : string) : M unit :=
  let payload := MsgOutput message in
  s <- get_session ;;
  forEach (clients s) (send_if_open payload).

Definition addToBuffer_session (data : string) (s : SharedSession) : SharedSession :=
  let s1 := set_outputBuffer (push (outputBuffer s) data) s in
  if maxBufferLines s1 <? List.length (outputBuffer s1)
  then set_outputBuffer (slice_last (maxBufferLines s1) (outputBuffer s1)) s1
  else s1.

Definition addToBuffer (data : string) : M unit :=
  modify_session (addToBuffer_session data).

(** [snapshot()] of the specification: what a replay sends. *)
Definition snapshot (s : SharedSession) : string := join (outputBuffer s).

Definition replayBufferToClient (ws : WebSocket) : M unit :=
  s <- get_session ;;
  if 0 <? List.length (outputBuffer s)
  then ws_send ws (MsgOutput (join (outputBuffer s)))
  else ret tt.

(** The two callbacks [createSharedPty] registers on the new process. *)
Definition onData (output : string) : M unit :=
  addToBuffer output ;;;
  broadcastToClients output.

Definition onExit (exitCode : Z) : M unit :=
  let exitMsg := MsgExit exitCode in
  s <- get_session ;;
  forEach (clients s) (send_if_open exitMsg) ;;;
  modify_session (set_pty None).

(** [pty.spawn]: throws, or returns a handle never seen before; the new
    process is running from then on. *)
Definition pty_spawn (env : Env) (cols rows : JsVal) : M IPty :=
  fun w =>
    if spawnThrows env then (Thrown SpawnError, w, [])
    else
      let p := spawned w in
      (Normal p,
       mkWorld (SHARED_SESSION w) (readyState w) (S p) (running w ++ [p]),
       [PtySpawn p cols rows]).

Definition createSharedPty (env : Env) (cols rows : JsVal) : M IPty :=
  ptyProcess <- pty_spawn env (js_or cols (JNum 80)) (js_or rows (JNum 24)) ;;
  (* ptyProcess.onData(...) and ptyProcess.onExit(...) attach [onData] and
     [onExit]; they run when the process emits the event, see [step]. *)
  ret ptyProcess.

(** [pty.write] and [pty.resize]: the library may reject the call. *)
Definition pty_call (env : Env) (e : Effect) : M unit :=
  if ptyCallThrows env then throw PtyError else emit e.

(** ** The connection gateway: [wss.on("connection", ...)] *)

(** The body of the [switch (data.type)] inside the [try] block. *)
Definition dispatch (ws : WebSocket) (data : JsVal) (env : Env) : M unit :=
  type <- get_prop data "type" ;;
  if strict_eq_str type "start" then
    s <- get_session ;;
    match pty s with
    | Some _ =>
        console (LogJoinExisting (List.length (outputBuffer s))) ;;;
        replayBufferToClient ws
    | None =>
        console LogCreatingShared ;;;
        cols <- get_prop data "cols" ;;
        rows <- get_prop data "rows" ;;
        p <- createSharedPty env (js_or cols (JNum 80)) (js_or rows (JNum 24)) ;;
        modify_session (set_pty (Some p)) ;;;
        modify_session (set_sessionId (randomHex env)) ;;;
        modify_session (set_outputBuffer [])
    end ;;;
    s <- get_session ;;
    ws_send ws (MsgSession (sessionId s) true (List.length (clients s)) false)
  else if strict_eq_str type "new" then
    s <- get_session ;;
    match pty s with
    | Some old => emit (PtyKill old) ;;; modify_session (set_pty None)
    | None => ret tt
    end ;;;
    modify_session (set_outputBuffer []) ;;;
    modify_session (set_sessionId (randomHex env)) ;;;
    cols <- get_prop data "cols" ;;
    rows <- get_prop data "rows" ;;
    p <- createSharedPty env (js_or cols (JNum 80)) (js_or rows (JNum 24)) ;;
    modify_session (set_pty (Some p)) ;;;
    s <- get_session ;;
    let newSessionMsg := MsgSession (sessionId s) true (List.length (clients s)) true in
    forEach (clients s) (send_if_open newSessionMsg) ;;;
    console LogNewShared
  else if strict_eq_str type "input" then
    s <- get_session ;;
    match pty s with
    | Some p => d <- get_prop data "data" ;; pty_call env (PtyWrite p d)
    | None => ret tt
    end
  else if strict_eq_str type "resize" then
    s <- get_session ;;
    match pty s with
    | Some p =>
        cols <- get_prop data "cols" ;;
        rows <- get_prop data "rows" ;;
        pty_call env (PtyResize p cols rows)
    | None => ret tt
    end
  else ret tt.

(** [JSON.parse(message.toString())]: the event carries the outcome, [None]
    when the text is not JSON. *)
Definition JSON_parse (parsed : option JsVal) : M JsVal :=
  match parsed with
  | Some v => ret v
  | None => throw SyntaxError
  end.

(** [ws.on("message", ...)]. *)
Definition onMessage (ws : WebSocket) (parsed : option JsVal) (env : Env) : M unit :=
  try_catch
    (data <- JSON_parse parsed ;; dispatch ws data env)
    (fun err => console (LogMessageError err)).

(** [ws.on("close", ...)]. *)
Definition onClose (ws : WebSocket) : M unit :=
  modify_session (fun s => set_clients (set_delete ws (clients s)) s) ;;;
  s <- get_session ;;
  console (LogClientDisconnected (List.length (clients s))).

(** The connection callback up to the registration of the two handlers;
    [authorized] is the outcome of the cookie / token check. *)
Definition onConnection (ws : WebSocket) (authorized : bool) : M unit :=
  if negb authorized then emit (WsCloseCall ws 4001)
  else
    modify_session (fun s => set_clients (set_add ws (clients s)) s) ;;;
    s <- get_session ;;
    console (LogClientConnected (List.length (clients s))).

(** ** The event loop *)

Inductive Event : Type :=
| EvConnection (ws : WebSocket) (authorized : bool)
| EvMessage (ws : WebSocket) (parsed : option JsVal) (env : Env)
| EvClose (ws : WebSocket)
| EvReadyState (ws : WebSocket) (r : ReadyState)   (* the transport changed state *)
| EvPtyData (p : IPty) (output : string)
| EvPtyExit (p : IPty) (exitCode : Z).

Definition set_readyState (ws : WebSocket) (r : ReadyState) : M unit :=
  fun w =>
    (Normal tt,
     mkWorld (SHARED_SESSION w)
             (fun x => if x =? ws then r else readyState w x)
             (spawned w) (running w),
     []).

Definition process_gone (p : IPty) : M unit :=
  fun w =>
    (Normal tt,
     mkWorld (SHARED_SESSION w) (readyState w) (spawned w)
             (filter (fun q => negb (q =? p)) (running w)),
     []).

(** One turn of the event loop.  A process emits data and its single exit
    event only while it is running; both callbacks are the closures that
    [createSharedPty] attached, whichever process they were attached to. *)
Definition step (e : Event) : M unit :=
  match e with
  | EvConnection ws authorized => onConnection ws authorized
  | EvMessage ws parsed env => onMessage ws parsed env
  | EvClose ws => onClose ws
  | EvReadyState ws r => set_readyState ws r
  | EvPtyData p output =>
      fun w => if existsb (Nat.eqb p) (running w) then onData output w else ret tt w
  | EvPtyExit p exitCode =>
      fun w =>
        if existsb (Nat.eqb p) (running w)
        then (process_gone p ;;; onExit exitCode) w
        else ret tt w
  end.

(** A sequence of turns; an error that escapes a handler ends the run. *)
Fixpoint run (es : list Event) : M unit :=
  match es with
  | [] => ret tt
  | e :: rest => step e ;;; run rest
  end.

(** The server right after start-up: no client, no process, every socket
    the transport will ever hand over is open when it arrives. *)
Definition world0 (id0 : string) : World :=
  mkWorld (SHARED_SESSION_init id0) (fun _ => OPEN) 0 [].

(** ** Vocabulary of the statements *)

Definition completion_of {A} (x : Completion A * World * list Effect) : Completion A :=
  fst (fst x).
Definition world_of {A} (x : Completion A * World * list Effect) : World :=
  snd (fst x).
Definition effects_of {A} (x : Completion A * World * list Effect) : list Effect :=
  snd x.

(** The messages handed to socket [ws], in order. *)
Definition sent_to (ws : WebSocket) (effs : list Effect) : list ServerMsg :=
  flat_map (fun e => match e with
                     | WsSend c m => if c =? ws then [m] else []
                     | _ => []
                     end) effs.

Definition is_output (m : ServerMsg) : bool :=
  match m with MsgOutput _ => true | _ => false end.

(** The terminal output a list of messages carries. *)
Definition output_text (ms : list ServerMsg) : string :=
  join (flat_map (fun m => match m with MsgOutput d => [d] | _ => [] end) ms).


Definition is_console (e : Effect) : bool :=
  match e with Console _ => true | _ => false end.

(** The two states of the session controller. *)
Definition ACTIVE (w : World) : Prop := pty (SHARED_SESSION w) <> None.
Definition EMPTY (w : World) : Prop := pty (SHARED_SESSION w) = None.

(** The registry is a [Set]: no socket occurs twice. *)
Definition registry_ok (w : World) : Prop := NoDup (clients (SHARED_SESSION w)).

(** The registered sockets a guarded loop sends to. *)
Definition open_clients (w : World) : list WebSocket :=
  filter (fun c => is_open (readyState w c)) (clients (SHARED_SESSION w)).

Definition deliveries (m : ServerMsg) (l : list WebSocket) : list Effect :=
  map (fun c => WsSend c m) l.

(** A run of appends, oldest first. *)
Definition appends (ds : list string) (s : SharedSession) : SharedSession :=
  fold_left (fun acc d => addToBuffer_session d acc) ds s.

(** The [n] most recently added elements of [l], in their order. *)
Definition most_recent {A} (n : nat) (l : list A) : list A :=
  skipn (List.length l - n) l.

(** The value [data.type] reads on a parsed message that is neither [null]
    nor [undefined]. *)
Definition type_of_message (data : JsVal) : JsVal :=
  match data with
  | JObj fs => lookup_field "type" fs
  | _ => JUndefined
  end.

(** The tag, when [data.type] is a string. *)
Definition message_tag (data : JsVal) : option string :=
  match type_of_message data with
  | JStr t => Some t
  | _ => None
  end.

(** Does the [switch] have a case for this value? *)
Definition known_tag (v : JsVal) : bool :=
  strict_eq_str v "start" || strict_eq_str v "new" ||
  strict_eq_str v "input" || strict_eq_str v "resize".

(** An inbound message that is not JSON, or whose [type] is none of the
    four tags (which includes JSON [null], scalars and arrays). *)
Definition malformed_or_unknown (parsed : option JsVal) : Prop :=
  match parsed with
  | None => True
  | Some data => known_tag (type_of_message data) = false
  end.

(** The world after a successful [createSharedPty] and the assignments that
    follow it in the [start] and [new] cases. *)
Definition created (env : Env) (w : World) : World :=
  mkWorld (mkSession (Some (spawned w)) (clients (SHARED_SESSION w)) []
                     (maxBufferLines (SHARED_SESSION w)) (randomHex env))
          (readyState w) (S (spawned w)) (running w ++ [spawned w]).

Definition spawn_effect (w : World) (fs : list (string * JsVal)) : Effect :=
  PtySpawn (spawned w)
           (js_or (js_or (lookup_field "cols" fs) (JNum 80)) (JNum 80))
           (js_or (js_or (lookup_field "rows" fs) (JNum 24)) (JNum 24)).

Definition kill_effects (w : World) : list Effect :=
  match pty (SHARED_SESSION w) with
  | Some old => [PtyKill old]
  | None => []
  end.

(** The world after process [p] has exited and its exit callback has run. *)
Definition exited (p : IPty) (w : World) : World :=
  mkWorld (set_pty None (SHARED_SESSION w)) (readyState w) (spawned w)
          (filter (fun q => negb (q =? p)) (running w)).

(** ** Sample inputs *)

Fixpoint string_repeat (c : ascii) (n : nat) : string :=
  match n with
  | 0 => EmptyString
  | S k => String c (string_repeat c k)
  end.

Definition env_ok (id : string) : Env := mkEnv id false false.
Definition env_spawn_fails (id : string) : Env := mkEnv id true false.

Definition start_80x24 : JsVal :=
  JObj [("type", JStr "start"); ("cols", JNum 80); ("rows", JNum 24)]%string.
Definition msg_start : option JsVal := Some start_80x24.
Definition msg_new : option JsVal := Some (JObj [("type", JStr "new")]%string).
Definition input_ls : JsVal :=
  JObj [("type", JStr "input"); ("data", JStr "ls")]%string.

(** One client is connected to a server that has no session yet. *)
Definition world_one_client : World :=
  mkWorld (mkSession None [1] [] 5000 "00000000000000aa") (fun _ => OPEN) 0 [].

(** A running session (process 0, one buffered chunk) with four registered
    sockets: 1 and 3 are open, 2 is closing, 4 has not finished its
    handshake. *)
Definition world_abc : World :=
  mkWorld (mkSession (Some 0) [1; 2; 3; 4] ["$ "%string] 5000 "a1b2c3d4e5f60718")
          (fun c => match c with 2 => CLOSING | 4 => CONNECTING | _ => OPEN end)
          1 [0].

(** Client 1 connects and starts the session, the shell prints ["hi"],
    then the shell exits. *)
Definition session_then_exit : list Event :=
  [EvConnection 1 true;
   EvMessage 1 msg_start (env_ok "1111111111111111");
   EvPtyData 0 "hi";
   EvPtyExit 0 0%Z].

(** Client 1 connects, starts the session and resets it; process 0 is the
    one the reset kills, process 1 its replacement. *)
Definition session_then_reset : list Event :=
  [EvConnection 1 true;
   EvMessage 1 msg_start (env_ok "1111111111111111");
   EvMessage 1 msg_new (env_ok "2222222222222222")].

(** Client 1 starts the session, client 2 connects, the shell prints
    ["hi"], and only then client 2 sends its [start]. *)
Definition late_start : list Event :=
  [EvConnection 1 true;
   EvMessage 1 msg_start (env_ok "1111111111111111");
   EvConnection 2 true;
   EvPtyData 0 "hi";
   EvMessage 2 msg_start (env_ok "2222222222222222")].

(** ** Vocabulary of the further properties *)

(** The three ways the process bookkeeping can come out of a message:
    untouched, reference dropped (a [new] whose spawn threw), or a fresh
    process spawned and referenced. *)
Definition process_outcome (w w' : World) : Prop :=
  (pty (SHARED_SESSION w') = pty (SHARED_SESSION w) /\
   running w' = running w /\ spawned w' = spawned w) \/
  (pty (SHARED_SESSION w') = None /\
   running w' = running w /\ spawned w' = spawned w) \/
  (pty (SHARED_SESSION w') = Some (spawned w) /\
   running w' = running w ++ [spawned w] /\ spawned w' = S (spawned w)).

(** The buffer is within its cap; every running process was handed out by
    [pty.spawn], once; the process reference, when set, is a process that
    has not exited. *)
Definition session_sound (w : World) : Prop :=
  List.length (outputBuffer (SHARED_SESSION w)) <= maxBufferLines (SHARED_SESSION w) /\
  0 < maxBufferLines (SHARED_SESSION w) /\
  (forall p, In p (running w) -> p < spawned w) /\
  NoDup (running w) /\
  (forall p, pty (SHARED_SESSION w) = Some p -> In p (running w)).

(** [data.k] on a parsed message that is neither [null] nor [undefined]. *)
Definition prop_of (data : JsVal) (k : string) : JsVal :=
  match data with
  | JObj fs => lookup_field k fs
  | _ => JUndefined
  end.

(** The world after a [new] whose spawn threw. *)
Definition reset_failed (env : Env) (w : World) : World :=
  mkWorld (mkSession None (clients (SHARED_SESSION w)) []
                     (maxBufferLines (SHARED_SESSION w)) (randomHex env))
          (readyState w) (spawned w) (running w).

(** ** Strings: [split] on a one-character separator, [trim] *)

(** [s.split(sep)] for a separator of one character: the pieces between
    the separators, [""] included; the empty string gives [[""]]. *)
Fixpoint split_on (sep : ascii) (s : string) : list string :=
  match s with
  | EmptyString => [EmptyString]
  | String c rest =>
      if Ascii.eqb c sep then EmptyString :: split_on sep rest
      else match split_on sep rest with
           | [] => [String c EmptyString]
           | piece :: pieces => String c piece :: pieces
           end
  end.

(** White space and line terminators among the code units below 256 (an
    HTTP header arrives decoded as latin1): TAB, LF, VT, FF, CR, SP, NBSP. *)
Definition is_js_space (c : ascii) : bool :=
  let n := nat_of_ascii c in
  (n =? 9) || (n =? 10) || (n =? 11) || (n =? 12) || (n =? 13) ||
  (n =? 32) || (n =? 160).

Fixpoint trim_start (s : string) : string :=
  match s with
  | EmptyString => EmptyString
  | String c rest => if is_js_space c then trim_start rest else s
  end.

Fixpoint trim_end (s : string) : string :=
  match s with
  | EmptyString => EmptyString
  | String c rest =>
      match trim_end rest with
      | EmptyString => if is_js_space c then EmptyString else String c EmptyString
      | kept => String c kept
      end
  end.

(** [s.trim()]. *)
Definition trim (s : string) : string := trim_end (trim_start s).

(** ** [parseCookies] *)

(** A [Record<string, string>] built from [{}]: its own properties. *)
Definition StringRecord := list (string * string).

Fixpoint record_get (k : string) (o : StringRecord) : option string :=
  match o with
  | [] => None
  | (k', v) :: rest => if (k' =? k)%string then Some v else record_get k rest
  end.

Fixpoint record_put (k v : string) (o : StringRecord) : StringRecord :=
  match o with
  | [] => [(k, v)]
  | (k', v') :: rest =>
      if (k' =? k)%string then (k, v) :: rest else (k', v') :: record_put k v rest
  end.

(** [o[k] = v] for a string [v]: the inherited [__proto__] setter ignores a
    string, every other key becomes or stays an own property. *)
Definition record_set (k v : string) (o : StringRecord) : StringRecord :=
  if (k =? "__proto__")%string then o else record_put k v o.

(** The callback of the [forEach] in [parseCookies]:
    [const [name, value] = cookie.trim().split("=")]. *)
Definition parseCookie (cookies : StringRecord) (cookie : string) : StringRecord :=
  let parts := split_on "=" (trim cookie) in
  let name := nth_error parts 0 in
  let value := nth_error parts 1 in
  match name, value with
  | Some n, Some v =>
      if negb (n =? "")%string && negb (v =? "")%string
      then record_set n v cookies else cookies
  | _, _ => cookies
  end.

Definition parseCookies (cookieHeader : option string) : StringRecord :=
  match cookieHeader with
  | None => []
  | Some h =>
      if (h =? "")%string then []
      else fold_left parseCookie (split_on ";" h) []
  end.

(** ** Vocabulary for cookie headers *)

Fixpoint chars (s : string) : list ascii :=
  match s with
  | EmptyString => []
  | String c rest => c :: chars rest
  end.

(** A name or value as a browser sends it: no [;], no [=], no white
    space. *)
Definition token_char (c : ascii) : bool :=
  negb (Ascii.eqb c ";") && negb (Ascii.eqb c "=") && negb (is_js_space c).

Definition cookie_token (s : string) : Prop :=
  s <> EmptyString /\ forallb token_char (chars s) = true.

(** The [Cookie] header a browser sends for the given name/value pairs. *)
Definition cookie_header (pairs : list (string * string)) : string :=
  String.concat "; " (map (fun nv => fst nv ++ "=" ++ snd nv)%string pairs).

(** The value of the last pair named [k]. *)
Fixpoint last_value (k : string) (pairs : list (string * string)) : option string :=
  match pairs with
  | [] => None
  | (n, v) :: rest =>
      match last_value k rest with
      | Some v' => Some v'
      | None => if (n =? k)%string then Some v else None
      end
  end.

Definition cookie_pair (nv : string * string) : string :=
  (fst nv ++ "=" ++ snd nv)%string.

Definition well_formed_pair (nv : string * string) : Prop :=
  cookie_token (fst nv) /\ cookie_token (snd nv) /\ fst nv <> "__proto__"%string.

(** ** Tokens: [crypto.randomBytes(n).toString("hex")] *)

Definition hex_digit (n : nat) : ascii :=
  nth n ["0"; "1"; "2"; "3"; "4"; "5"; "6"; "7"; "8"; "9";
         "a"; "b"; "c"; "d"; "e"; "f"]%char "0"%char.

(** [buffer.toString("hex")]: two lower-case digits per byte. *)
Fixpoint toHex (bytes : list Byte.byte) : string :=
  match bytes with
  | [] => EmptyString
  | b :: rest =>
      String (hex_digit (Byte.to_nat b / 16))
             (String (hex_digit (Byte.to_nat b mod 16)) (toHex rest))
  end.

(** [crypto.randomBytes(n)]: the next [n] bytes of the entropy the call
    draws on. *)
Definition randomBytes (entropy : nat -> Byte.byte) (n : nat) : list Byte.byte :=
  map entropy (seq 0 n).

Definition generateToken (entropy : nat -> Byte.byte) : string :=
  toHex (randomBytes entropy 32).

Definition generateSessionId (entropy : nat -> Byte.byte) : string :=
  toHex (randomBytes entropy 16).

(** The character class [[a-f0-9]]. *)
Definition is_lower_hex (c : ascii) : bool :=
  let n := nat_of_ascii c in
  ((48 <=? n) && (n <=? 57)) || ((97 <=? n) && (n <=? 102)).

(** ** Substring search: [s.includes(needle)] *)

Fixpoint includes (s needle : string) : bool :=
  String.prefix needle s ||
  match s with
  | EmptyString => false
  | String _ rest => includes rest needle
  end.

(** ** Authentication state and the HTTP routes *)

(** What the routes read of a request. *)
Record Request : Type := mkRequest {
  req_cookie : option string;       (* req.headers.cookie *)
  req_token_header : JsVal;         (* req.headers["x-emergent-token"] *)
  req_query_token : JsVal;          (* req.query.token *)
  req_query_error : JsVal;          (* req.query.error *)
  req_host : option string;         (* req.headers.host *)
  req_origin : option string;       (* req.headers.origin *)
  req_method : string               (* req.method *)
}.

(** [ACCESS_TOKEN] and the [Set] [authenticatedSessions].  The start-up
    banner calls [ACCESS_TOKEN.substring], so a server that is serving has a
    string there. *)
Record Auth : Type := mkAuth {
  ACCESS_TOKEN : string;
  authenticatedSessions : list string
}.

Definition sessions_has (sid : string) (l : list string) : bool :=
  existsb (String.eqb sid) l.
Definition sessions_add (sid : string) (l : list string) : list string :=
  if sessions_has sid l then l else l ++ [sid].
Definition sessions_delete (sid : string) (l : list string) : list string :=
  filter (fun s => negb (s =? sid)%string) l.

Definition isAuthenticated (a : Auth) (req : Request) : bool :=
  let cookies := parseCookies (req_cookie req) in
  let sessionId := record_get "emergent_session" cookies in
  if match sessionId with
     | Some sid => negb (sid =? "")%string && sessions_has sid (authenticatedSessions a)
     | None => false
     end
  then true
  else if strict_eq_str (req_token_header req) (ACCESS_TOKEN a) then true
  else if strict_eq_str (req_query_token req) (ACCESS_TOKEN a) then true
  else false.

Inductive CookieChange : Type :=
| KeepCookies
| SetCookie (name value : string)       (* res.cookie(name, value, ...) *)
| ClearCookie (name : string).          (* res.clearCookie(name) *)

Inductive Reply : Type :=
| Redirect (url : string) (cookie : CookieChange)
| LoginPage (withError : bool)
| TokenJson (token : string)            (* res.json({ token }) *)
| Forbidden403                          (* res.status(403).json({ error }) *)
| Status200.                            (* res.sendStatus(200) *)

(** [requireAuth]: [None] is [next()]. *)
Definition requireAuth (a : Auth) (req : Request) : option Reply :=
  if isAuthenticated a req then None else Some (Redirect "/login" KeepCookies).

(** [app.get("/login", ...)]. *)
Definition getLogin (a : Auth) (req : Request) : Reply :=
  if isAuthenticated a req then Redirect "/" KeepCookies
  else LoginPage (truthy (req_query_error req)).

(** [app.post("/login", ...)]; [token] is [req.body.token]. *)
Definition postLogin (a : Auth) (token : JsVal) (entropy : nat -> Byte.byte)
  : Auth * Reply :=
  if strict_eq_str token (ACCESS_TOKEN a) then
    let sessionId := generateSessionId entropy in
    (mkAuth (ACCESS_TOKEN a) (sessions_add sessionId (authenticatedSessions a)),
     Redirect "/" (SetCookie "emergent_session" sessionId))
  else (a, Redirect "/login?error=1" KeepCookies).

(** [app.get("/logout", ...)]. *)
Definition getLogout (a : Auth) (req : Request) : Auth * Reply :=
  let cookies := parseCookies (req_cookie req) in
  let sessionId := record_get "emergent_session" cookies in
  (match sessionId with
   | Some sid =>
       if negb (sid =? "")%string
       then mkAuth (ACCESS_TOKEN a) (sessions_delete sid (authenticatedSessions a))
       else a
   | None => a
   end,
   Redirect "/login" (ClearCookie "emergent_session")).

(** [app.get("/api/token", ...)]: [req.headers.host || ""]. *)
Definition getApiToken (a : Auth) (req : Request) : Reply :=
  let host := match req_host req with
              | Some h => if (h =? "")%string then ""%string else h
              | None => ""%string
              end in
  if negb (includes host "localhost") && negb (includes host "127.0.0.1")
  then Forbidden403
  else TokenJson (ACCESS_TOKEN a).

(** The CORS middleware: the headers it sets, and the reply when it ends
    the request itself ([None] is [next()]). *)
Definition corsMiddleware (req : Request) : list (string * string) * option Reply :=
  let headers :=
      match req_origin req with
      | Some origin =>
          if negb (origin =? "")%string &&
             (includes origin "localhost" || includes origin "127.0.0.1")
          then [("Access-Control-Allow-Origin", origin);
                ("Access-Control-Allow-Methods", "GET, POST, OPTIONS");
                ("Access-Control-Allow-Headers", "Content-Type, X-Emergent-Token");
                ("Access-Control-Allow-Credentials", "true")]%string
          else []
      | None => []
      end in
  if (req_method req =? "OPTIONS")%string then (headers, Some Status200)
  else (headers, None).

(** The credentials check of [wss.on("connection", ...)]; [tokenParam] is
    [urlParams.get("token")], [None] for [null]. *)
Definition wsAuthorized (a : Auth) (cookieHeader : option string)
           (tokenParam : option string) : bool :=
  let cookies := parseCookies cookieHeader in
  let sessionId := record_get "emergent_session" cookies in
  let sid := match sessionId with
             | Some s => if (s =? "")%string then ""%string else s
             | None => ""%string
             end in
  let tokenDiffers := match tokenParam with
                      | Some t => negb (t =? ACCESS_TOKEN a)%string
                      | None => true
                      end in
  negb (negb (sessions_has sid (authenticatedSessions a)) && tokenDiffers).

(** The connection callback with its credentials check. *)
Definition onUpgrade (a : Auth) (ws : WebSocket) (cookieHeader : option string)
           (tokenParam : option string) : M unit :=
  onConnection ws (wsAuthorized a cookieHeader tokenParam).

(** The two routes that change [authenticatedSessions]. *)
Inductive AuthEvent : Type :=
| PostLogin (token : JsVal) (entropy : nat -> Byte.byte)
| GetLogout (req : Request).

Definition auth_step (a : Auth) (e : AuthEvent) : Auth :=
  match e with
  | PostLogin token entropy => fst (postLogin a token entropy)
  | GetLogout req => fst (getLogout a req)
  end.

Definition auth_run (es : list AuthEvent) (a : Auth) : Auth :=
  fold_left auth_step es a.

Definition hex_value (c : ascii) : nat :=
  let n := nat_of_ascii c in
  if n <=? 57 then n - 48 else n - 87.

Definition zero_entropy : nat -> Byte.byte := fun _ => Byte.x00.

Definition auth0 : Auth := mkAuth (string_repeat "a" 64) [].

Definition request_with_cookie (cookie : option string) : Request :=
  mkRequest cookie JUndefined JUndefined JUndefined (Some "example.org:3100"%string)
            None "GET".

Definition presents_token (a : Auth) (e : AuthEvent) : bool :=
  match e with
  | PostLogin token _ => strict_eq_str token (ACCESS_TOKEN a)
  | GetLogout _ => false
  end.

(** Every identifier in the set is the fresh identifier of a login that
    presented the token, or was there before. *)
Definition issued_by (a : Auth) (es : list AuthEvent) (sid : string) : Prop :=
  exists token entropy,
    In (PostLogin token entropy) es /\
    strict_eq_str token (ACCESS_TOKEN a) = true /\
    sid = generateSessionId entropy.

(** ** The token file *)

(** The token file by what [JSON.parse] makes of its text; a value written
    with [JSON.stringify] reads back as that value. *)
Inductive FileContent : Type :=
| FileJson (v : JsVal)
| FileNotJson.

(** [None]: [fs.existsSync(TOKEN_FILE)] is false. *)
Definition Disk := option FileContent.

Record FsEnv : Type := mkFsEnv {
  fs_entropy : nat -> Byte.byte;      (* what crypto.randomBytes draws on *)
  fs_now : string;                    (* new Date().toISOString() *)
  fs_readThrows : bool;               (* fs.readFileSync throws *)
  fs_writeThrows : bool;              (* fs.writeFileSync throws *)
  fs_afterFailedWrite : Disk          (* the file a failed write leaves *)
}.

Inductive TokenLog : Type :=
| LogErrorLoadingToken                (* console.error in the catch *)
| LogTokenRegenerated.                (* console.log in regenerateToken *)

Inductive FsResult : Type :=
| Returned (v : JsVal)
| WriteFailed.                        (* the exception of writeFileSync escapes *)

(** [const data: TokenData = { token, createdAt }]. *)
Definition tokenData (token createdAt : string) : JsVal :=
  JObj [("token", JStr token); ("createdAt", JStr createdAt)]%string.

(** The tail shared by both functions: generate, write, return. *)
Definition writeNewToken (env : FsEnv) (logged : list TokenLog)
           (after : list TokenLog) : FsResult * Disk * list TokenLog :=
  let token := generateToken (fs_entropy env) in
  if fs_writeThrows env then (WriteFailed, fs_afterFailedWrite env, logged)
  else (Returned (JStr token),
        Some (FileJson (tokenData token (fs_now env))),
        logged ++ after).

Definition loadOrCreateToken (env : FsEnv) (disk : Disk)
  : FsResult * Disk * list TokenLog :=
  match disk with
  | Some content =>
      if fs_readThrows env then writeNewToken env [LogErrorLoadingToken] []
      else
        match content with
        | FileNotJson => writeNewToken env [LogErrorLoadingToken] []
        | FileJson JNull | FileJson JUndefined =>
            writeNewToken env [LogErrorLoadingToken] []
        | FileJson data => (Returned (prop_of data "token"), disk, [])
        end
  | None => writeNewToken env [] []
  end.

Definition regenerateToken (env : FsEnv) (disk : Disk)
  : FsResult * Disk * list TokenLog :=
  writeNewToken env [] [LogTokenRegenerated].

Definition fs_quiet (entropy : nat -> Byte.byte) (now : string) : FsEnv :=
  mkFsEnv entropy now false false None.

(** Is the file unusable as a token file? *)
Definition unreadable (env : FsEnv) (content : FileContent) : Prop :=
  fs_readThrows env = true \/ content = FileNotJson \/ content = FileJson JNull.


(** [ws.close(code, reason)] of the ws library: throws on a socket that is
    still CONNECTING, otherwise the call goes through. *)
Definition ws_close (ws : WebSocket) (code : nat) : M unit :=
  fun w =>
    match readyState w ws with
    | CONNECTING => (Thrown SocketError, w, [])
    | _ => (Normal tt, w, [WsCloseCall ws code])
    end.

(** The connection callback with the rejection going through [ws_close];
    the call is outside any [try]. *)
Definition onConnectionChecked (ws : WebSocket) (authorized : bool) : M unit :=
  if negb authorized then ws_close ws 4001 else onConnection ws true.

Definition stepChecked (e : Event) : M unit :=
  match e with
  | EvConnection ws authorized => onConnectionChecked ws authorized
  | _ => step e
  end.

Fixpoint runChecked (es : list Event) : M unit :=
  match es with
  | [] => ret tt
  | e :: rest => stepChecked e ;;; runChecked rest
  end.

(** No connection is rejected while its socket is still CONNECTING (a
    server-side socket is handed over OPEN). *)
Fixpoint rejections_ready (es : list Event) (w : World) : Prop :=
  match es with
  | [] => True
  | e :: rest =>
      match e with
      | EvConnection ws false => readyState w ws <> CONNECTING
      | _ => True
      end /\ rejections_ready rest (world_of (step e w))
  end.

(** * Properties *)

(** ** The output ring buffer *)

Lemma most_recent_length {A} n (l : list A) :
  List.length (most_recent n l) = Nat.min n (List.length l).
Proof. unfold most_recent. rewrite length_skipn. lia. Qed.

Lemma most_recent_app {A} n (l l' : list A) :
  most_recent n (most_recent n l ++ l') = most_recent n (l ++ l').
Proof.
  unfold most_recent at 2.
  assert (E : skipn (List.length l - n) l ++ l' = skipn (List.length l - n) (l ++ l')).
  { rewrite skipn_app.
    replace (List.length l - n - List.length l) with 0 by lia.
    reflexivity. }
  rewrite E. unfold most_recent.
  rewrite skipn_skipn. f_equal.
  rewrite length_skipn, !length_app. lia.
Qed.

Lemma most_recent_all {A} n (l : list A) :
  List.length l <= n -> most_recent n l = l.
Proof.
  intros H. unfold most_recent.
  replace (List.length l - n) with 0 by lia. reflexivity.
Qed.

Lemma addToBuffer_session_frame d s :
  pty (addToBuffer_session d s) = pty s /\
  clients (addToBuffer_session d s) = clients s /\
  maxBufferLines (addToBuffer_session d s) = maxBufferLines s /\
  sessionId (addToBuffer_session d s) = sessionId s.
Proof.
  unfold addToBuffer_session. cbv zeta.
  destruct (_ <? _); repeat split.
Qed.

Lemma addToBuffer_session_buffer d s :
  0 < maxBufferLines s ->
  outputBuffer (addToBuffer_session d s) =
  most_recent (maxBufferLines s) (outputBuffer s ++ [d]).
Proof.
  intros Hcap. unfold addToBuffer_session, push, set_outputBuffer. cbv zeta.
  cbn [outputBuffer maxBufferLines].
  destruct (Nat.ltb_spec (maxBufferLines s) (List.length (outputBuffer s ++ [d]))) as [Hlt | Hge];
    cbn [outputBuffer].
  - unfold slice_last.
    destruct (Nat.eqb_spec (maxBufferLines s) 0); [lia | reflexivity].
  - symmetry. apply most_recent_all. exact Hge.
Qed.

Lemma appends_buffer ds : forall s,
  0 < maxBufferLines s ->
  List.length (outputBuffer s) <= maxBufferLines s ->
  outputBuffer (appends ds s) =
  most_recent (maxBufferLines s) (outputBuffer s ++ ds).
Proof.
  induction ds as [| d ds IH]; intros s Hcap Hinv; cbn.
  - rewrite app_nil_r. symmetry. now apply most_recent_all.
  - destruct (addToBuffer_session_frame d s) as (_ & _ & Hmax & _).
    unfold appends in IH. rewrite IH; rewrite Hmax; try assumption.
    + rewrite (addToBuffer_session_buffer d s Hcap), most_recent_app.
      now rewrite <- app_assoc.
    + rewrite (addToBuffer_session_buffer d s Hcap), most_recent_length. lia.
Qed.

Lemma string_length_append (a b : string) :
  String.length (a ++ b)%string = String.length a + String.length b.
Proof. induction a as [| c a IH]; cbn; [reflexivity | now rewrite IH]. Qed.

Lemma join_length_bound m (l : list string) :
  Forall (fun d => String.length d <= m) l ->
  String.length (join l) <= List.length l * m.
Proof.
  unfold join.
  induction 1 as [| d l Hd Hl IH]; [cbn; lia |].
  change (List.length (d :: l) * m) with (m + List.length l * m).
  destruct l as [| d' l'].
  - cbn. lia.
  - change (String.concat "" (d :: d' :: l'))
      with (d ++ String.concat "" (d' :: l'))%string.
    rewrite string_length_append. lia.
Qed.

Lemma Forall_skipn {A} (P : A -> Prop) n (l : list A) :
  Forall P l -> Forall P (skipn n l).
Proof.
  intros H. rewrite <- (firstn_skipn n l) in H.
  now apply Forall_app in H.
Qed.

(** C1 (as the code has it): the cap of the buffer counts chunks.  After any
    run of appends to a buffer within its cap, the buffer holds at most
    [maxBufferLines] chunks, they are exactly the most recently appended
    ones in append order (what was dropped is a prefix of the history), and
    the snapshot is bounded in bytes only through a bound on the chunks. *)
Theorem buffer_bounded_fifo (s : SharedSession) (ds : list string) :
  0 < maxBufferLines s ->
  List.length (outputBuffer s) <= maxBufferLines s ->
  let s' := appends ds s in
  List.length (outputBuffer s') <= maxBufferLines s /\
  outputBuffer s' = most_recent (maxBufferLines s) (outputBuffer s ++ ds) /\
  (exists evicted, outputBuffer s ++ ds = evicted ++ outputBuffer s') /\
  (forall m, Forall (fun d => String.length d <= m) (outputBuffer s ++ ds) ->
             String.length (snapshot s') <= maxBufferLines s * m).
Proof.
  intros Hcap Hinv s'.
  assert (E : outputBuffer s' = most_recent (maxBufferLines s) (outputBuffer s ++ ds))
    by (apply appends_buffer; assumption).
  assert (L : List.length (outputBuffer s') <= maxBufferLines s)
    by (rewrite E, most_recent_length; lia).
  repeat split; try assumption.
  - exists (firstn (List.length (outputBuffer s ++ ds) - maxBufferLines s)
                   (outputBuffer s ++ ds)).
    rewrite E. unfold most_recent. now rewrite firstn_skipn.
  - intros m Hm. unfold snapshot.
    apply Nat.le_trans with (List.length (outputBuffer s') * m).
    + apply join_length_bound. rewrite E. now apply Forall_skipn.
    + apply Nat.mul_le_mono_r. exact L.
Qed.

Lemma buffer_bounded_fifo_witness :
  let s := SHARED_SESSION_init "a1b2c3d4e5f60718" in
  let s' := appends ["ls"; "a.txt"; "$ "]%string (mkSession None [] ["x"; "y"]%string 3 "id") in
  0 < maxBufferLines s /\
  List.length (outputBuffer (appends ["hi"]%string s)) <= maxBufferLines s /\
  outputBuffer s' = ["ls"; "a.txt"; "$ "]%string.
Proof.
  cbv zeta. split; [cbn; lia |]. split.
  - apply (buffer_bounded_fifo (SHARED_SESSION_init "a1b2c3d4e5f60718") ["hi"%string]);
      cbn; lia.
  - pose proof (buffer_bounded_fifo (mkSession None [] ["x"; "y"]%string 3 "id")
                  ["ls"; "a.txt"; "$ "]%string) as H.
    cbn [maxBufferLines outputBuffer List.length] in H.
    destruct H as (_ & H & _); [lia | lia |].
    rewrite H. reflexivity.
Defined.

(** C1 (as stated) fails: the snapshot of the buffer after one append of a
    5001-byte chunk is 5001 bytes long, above the configured cap of 5000. *)
Lemma snapshot_exceeds_cap :
  let s := addToBuffer_session (string_repeat "x" 5001)
                               (SHARED_SESSION_init "a1b2c3d4e5f60718") in
  maxBufferLines s = 5000 /\
  String.length (snapshot s) = 5001 /\
  ~ String.length (snapshot s) <= maxBufferLines s.
Proof.
  cbv zeta.
  assert (E : String.length (snapshot (addToBuffer_session (string_repeat "x" 5001)
                (SHARED_SESSION_init "a1b2c3d4e5f60718"))) = 5001)
    by (vm_compute; reflexivity).
  split; [reflexivity |]. split; [exact E |].
  rewrite E. change (maxBufferLines _) with 5000.
  apply Nat.lt_nge. constructor.
Qed.

(** ** Broadcasts *)

Lemma forEach_send_if_open m (l : list WebSocket) (w : World) :
  forEach l (send_if_open m) w =
  (Normal tt, w, deliveries m (filter (fun c => is_open (readyState w c)) l)).
Proof.
  induction l as [| c l IH]; [reflexivity |].
  cbn [forEach filter]. unfold bind at 1.
  unfold send_if_open at 1, ws_send.
  destruct (readyState w c) eqn:E; cbn [is_open ret]; rewrite ?E, IH; reflexivity.
Qed.

Lemma sent_to_app ws (e1 e2 : list Effect) :
  sent_to ws (e1 ++ e2) = sent_to ws e1 ++ sent_to ws e2.
Proof. unfold sent_to. apply flat_map_app. Qed.

Lemma sent_to_deliveries_absent ws m (l : list WebSocket) :
  ~ In ws l -> sent_to ws (deliveries m l) = [].
Proof.
  induction l as [| c l IH]; intros Hn; [reflexivity |].
  cbn. destruct (Nat.eqb_spec c ws) as [-> | Hne].
  - exfalso. apply Hn. now left.
  - apply IH. intros Hin. apply Hn. now right.
Qed.

Lemma sent_to_deliveries_once ws m (l : list WebSocket) :
  NoDup l -> In ws l -> sent_to ws (deliveries m l) = [m].
Proof.
  induction 1 as [| c l Hc Hl IH]; intros Hin; [destruct Hin |].
  cbn. destruct (Nat.eqb_spec c ws) as [-> | Hne].
  - cbn. f_equal. now apply sent_to_deliveries_absent.
  - destruct Hin as [-> | Hin]; [congruence |]. now apply IH.
Qed.

Lemma deliveries_only_sends m l e :
  In e (deliveries m l) -> exists c, In c l /\ e = WsSend c m.
Proof.
  unfold deliveries. rewrite in_map_iff. intros (c & <- & Hc). now exists c.
Qed.

Lemma in_open_clients w c :
  In c (open_clients w) <->
  In c (clients (SHARED_SESSION w)) /\ readyState w c = OPEN.
Proof.
  unfold open_clients. rewrite filter_In.
  destruct (readyState w c); cbn; intuition congruence.
Qed.

Lemma open_clients_NoDup w : registry_ok w -> NoDup (open_clients w).
Proof. apply NoDup_filter. Qed.

Lemma broadcastToClients_eq message w :
  broadcastToClients message w =
  (Normal tt, w, deliveries (MsgOutput message) (open_clients w)).
Proof.
  unfold broadcastToClients, bind, get_session.
  rewrite forEach_send_if_open. reflexivity.
Qed.

(** C8: the guarded loop every broadcast is made of (output, exit and
    new-session messages alike), and [broadcastToClients] in particular: it
    completes normally whatever the state of the registered sockets, changes
    nothing, hands the message exactly once to every registered socket that
    is open, and nothing to any other socket. *)
Theorem broadcast_reaches_every_open_client (m : ServerMsg) (message : string)
        (w : World) :
  registry_ok w ->
  exists effs,
    forEach (clients (SHARED_SESSION w)) (send_if_open m) w = (Normal tt, w, effs) /\
    (m = MsgOutput message -> broadcastToClients message w = (Normal tt, w, effs)) /\
    (forall e, In e effs -> exists c, e = WsSend c m) /\
    (forall c, In c (clients (SHARED_SESSION w)) -> readyState w c = OPEN ->
               sent_to c effs = [m]) /\
    (forall c, readyState w c <> OPEN -> sent_to c effs = []) /\
    (forall c, ~ In c (clients (SHARED_SESSION w)) -> sent_to c effs = []).
Proof.
  intros Hok. exists (deliveries m (open_clients w)).
  split; [apply forEach_send_if_open |].
  split; [intros ->; apply broadcastToClients_eq |].
  split; [| split; [| split]].
  - intros e He. apply deliveries_only_sends in He as (c & _ & ->). now exists c.
  - intros c Hin Hop. apply sent_to_deliveries_once.
    + now apply open_clients_NoDup.
    + now apply in_open_clients.
  - intros c Hcl. apply sent_to_deliveries_absent.
    rewrite in_open_clients. tauto.
  - intros c Hn. apply sent_to_deliveries_absent.
    rewrite in_open_clients. tauto.
Qed.

Lemma world_abc_registry_ok : registry_ok world_abc.
Proof.
  unfold registry_ok, world_abc; cbn.
  repeat constructor; cbn; intuition discriminate.
Qed.

Lemma broadcast_reaches_every_open_client_witness :
  exists effs,
    broadcastToClients "hi" world_abc = (Normal tt, world_abc, effs) /\
    sent_to 1 effs = [MsgOutput "hi"] /\
    sent_to 2 effs = [] /\
    sent_to 3 effs = [MsgOutput "hi"] /\
    sent_to 4 effs = [].
Proof.
  destruct (broadcast_reaches_every_open_client (MsgOutput "hi") "hi" world_abc
              world_abc_registry_ok)
    as (effs & _ & Heq & _ & Hopen & Hclosed & _).
  exists effs. split; [apply Heq; reflexivity |].
  split; [apply Hopen; cbn; auto |].
  split; [apply Hclosed; cbn; discriminate |].
  split; [apply Hopen; cbn; auto |].
  apply Hclosed; cbn; discriminate.
Defined.

(** ** Equations of the handlers *)

Lemma open_clients_with_session f w :
  clients (f (SHARED_SESSION w)) = clients (SHARED_SESSION w) ->
  open_clients (with_session f w) = open_clients w.
Proof. unfold open_clients, with_session; cbn. now intros ->. Qed.

Lemma onExit_eq exitCode w :
  onExit exitCode w =
  (Normal tt, with_session (set_pty None) w,
   deliveries (MsgExit exitCode) (open_clients w)).
Proof.
  unfold onExit, bind, get_session, modify_session.
  rewrite forEach_send_if_open. now rewrite app_nil_r.
Qed.

Lemma onData_eq output w :
  onData output w =
  (Normal tt, with_session (addToBuffer_session output) w,
   deliveries (MsgOutput output) (open_clients w)).
Proof.
  unfold onData, bind, addToBuffer, modify_session.
  rewrite broadcastToClients_eq, open_clients_with_session.
  - reflexivity.
  - apply addToBuffer_session_frame.
Qed.

Lemma onClose_eq ws w :
  onClose ws w =
  (Normal tt,
   with_session (fun s => set_clients (set_delete ws (clients s)) s) w,
   [Console (LogClientDisconnected
               (List.length (set_delete ws (clients (SHARED_SESSION w)))))]).
Proof. reflexivity. Qed.

Lemma set_delete_spec ws l c : In c (set_delete ws l) <-> In c l /\ c <> ws.
Proof.
  unfold set_delete. rewrite filter_In.
  destruct (Nat.eqb_spec c ws); cbn; intuition congruence.
Qed.

(** C4: the close handler removes the closing socket from the registry and
    logs; the process reference, the buffer, the identifier, the running
    processes and every socket's state are as before, nothing is sent or
    killed, and this is so when the registry becomes empty. *)
Theorem close_only_unregisters (ws : WebSocket) (w : World) :
  exists w' n,
    onClose ws w = (Normal tt, w', [Console (LogClientDisconnected n)]) /\
    (forall c, In c (clients (SHARED_SESSION w')) <->
               In c (clients (SHARED_SESSION w)) /\ c <> ws) /\
    pty (SHARED_SESSION w') = pty (SHARED_SESSION w) /\
    outputBuffer (SHARED_SESSION w') = outputBuffer (SHARED_SESSION w) /\
    sessionId (SHARED_SESSION w') = sessionId (SHARED_SESSION w) /\
    maxBufferLines (SHARED_SESSION w') = maxBufferLines (SHARED_SESSION w) /\
    running w' = running w /\
    spawned w' = spawned w /\
    readyState w' = readyState w /\
    (clients (SHARED_SESSION w) = [ws] ->
     clients (SHARED_SESSION w') = [] /\ n = 0).
Proof.
  eexists _, _. split; [apply onClose_eq |].
  cbn. split; [intros c; apply set_delete_spec |].
  do 7 (split; [reflexivity |]).
  intros Hlast. rewrite Hlast. cbn. rewrite Nat.eqb_refl. split; reflexivity.
Qed.

(** ** Equations of the message handler *)

Lemma tag_inv data t :
  message_tag data = Some t ->
  exists fs, data = JObj fs /\ lookup_field "type" fs = JStr t.
Proof.
  unfold message_tag. destruct data; cbn; try discriminate.
  destruct (lookup_field "type" fields) eqn:E; try discriminate.
  intros [= ->]. now exists fields.
Qed.

Ltac mnorm :=
  cbv beta iota zeta delta
    [onMessage try_catch JSON_parse dispatch bind ret throw get_prop
     get_session console emit createSharedPty pty_spawn modify_session
     ws_send pty_call replayBufferToClient].

Ltac mred :=
  cbv beta iota zeta;
  cbn [app with_session readyState SHARED_SESSION spawned running
       set_pty set_sessionId set_outputBuffer set_clients
       pty clients outputBuffer maxBufferLines sessionId].

Ltac tag_is t :=
  match goal with
  | H : message_tag ?data = Some _ |- _ =>
      let fs := fresh "fs" in
      let E := fresh "Etype" in
      apply tag_inv in H as (fs & -> & E); mnorm; rewrite E
  end;
  repeat match goal with
         | |- context [strict_eq_str (JStr ?a) ?b] =>
             let v := eval vm_compute in (strict_eq_str (JStr a) b) in
             change (strict_eq_str (JStr a) b) with v
         end;
  mred.

(** A [start] on a running session: a log line, the replay when something
    is buffered, the session message. *)
Lemma onMessage_join ws data env w p :
  pty (SHARED_SESSION w) = Some p ->
  message_tag data = Some "start"%string ->
  readyState w ws = OPEN ->
  onMessage ws (Some data) env w =
  (Normal tt, w,
   Console (LogJoinExisting (List.length (outputBuffer (SHARED_SESSION w)))) ::
   (if 0 <? List.length (outputBuffer (SHARED_SESSION w))
    then [WsSend ws (MsgOutput (snapshot (SHARED_SESSION w)))] else []) ++
   [WsSend ws (MsgSession (sessionId (SHARED_SESSION w)) true
                          (List.length (clients (SHARED_SESSION w))) false)]).
Proof.
  intros Hpty Htag Hopen. tag_is "start"%string.
  rewrite Hpty. mred.
  destruct (0 <? List.length (outputBuffer (SHARED_SESSION w))); mred;
    repeat (rewrite Hopen; mred); reflexivity.
Qed.

Lemma onMessage_create ws fs env w :
  pty (SHARED_SESSION w) = None ->
  lookup_field "type" fs = JStr "start" ->
  spawnThrows env = false ->
  readyState w ws = OPEN ->
  onMessage ws (Some (JObj fs)) env w =
  (Normal tt, created env w,
   [Console LogCreatingShared; spawn_effect w fs;
    WsSend ws (MsgSession (randomHex env) true
                          (List.length (clients (SHARED_SESSION w))) false)]).
Proof.
  intros Hpty Htag Hspawn Hopen. mnorm. rewrite Htag.
  change (strict_eq_str (JStr "start") "start") with true. mred.
  rewrite Hpty. mred. rewrite Hspawn. mred.
  repeat (rewrite Hopen; mred). reflexivity.
Qed.

Lemma onMessage_create_fails ws data env w :
  pty (SHARED_SESSION w) = None ->
  message_tag data = Some "start"%string ->
  spawnThrows env = true ->
  onMessage ws (Some data) env w =
  (Normal tt, w, [Console LogCreatingShared; Console (LogMessageError SpawnError)]).
Proof.
  intros Hpty Htag Hspawn. tag_is "start"%string.
  rewrite Hpty. mred. rewrite Hspawn. reflexivity.
Qed.

Lemma onMessage_input_empty ws data env w :
  pty (SHARED_SESSION w) = None ->
  message_tag data = Some "input"%string ->
  onMessage ws (Some data) env w = (Normal tt, w, []).
Proof.
  intros Hpty Htag. tag_is "input"%string.
  rewrite Hpty. reflexivity.
Qed.

Lemma onMessage_new ws fs env w :
  lookup_field "type" fs = JStr "new" ->
  spawnThrows env = false ->
  onMessage ws (Some (JObj fs)) env w =
  (Normal tt, created env w,
   kill_effects w ++ [spawn_effect w fs] ++
   deliveries (MsgSession (randomHex env) true
                          (List.length (clients (SHARED_SESSION w))) true)
              (open_clients w) ++
   [Console LogNewShared]).
Proof.
  intros Htag Hspawn. mnorm. rewrite Htag.
  change (strict_eq_str (JStr "new") "start") with false.
  change (strict_eq_str (JStr "new") "new") with true. mred.
  unfold kill_effects.
  destruct (pty (SHARED_SESSION w)) as [old |] eqn:Hpty; mred;
    rewrite Hspawn; mred; rewrite forEach_send_if_open; mred;
    unfold created, open_clients; cbn [readyState SHARED_SESSION clients];
    rewrite ?app_nil_r; reflexivity.
Qed.

Lemma onMessage_unknown ws parsed env w :
  malformed_or_unknown parsed ->
  onMessage ws parsed env w = (Normal tt, w, []) \/
  exists e, onMessage ws parsed env w = (Normal tt, w, [Console (LogMessageError e)]).
Proof.
  destruct parsed as [data |]; cbn [malformed_or_unknown].
  - unfold known_tag. intros H.
    apply orb_false_iff in H as [H Hresize].
    apply orb_false_iff in H as [H Hinput].
    apply orb_false_iff in H as [Hstart Hnew].
    destruct data; cbn [type_of_message] in *; mnorm;
      try (right; eexists; reflexivity);
      rewrite ?Hstart, ?Hnew, ?Hinput, ?Hresize; mred;
      try (left; reflexivity).
    all: cbn in *; try (left; reflexivity).
  - intros _. right. exists SyntaxError. reflexivity.
Qed.

(** ** Joining a running session *)

Lemma sent_to_cons_console ws l effs :
  sent_to ws (Console l :: effs) = sent_to ws effs.
Proof. reflexivity. Qed.

(** A run of output events of a running process: each chunk is appended to
    the buffer and delivered to the sockets that are registered and open. *)
Lemma run_output_events p (outs : list string) : forall w,
  In p (running w) ->
  run (map (EvPtyData p) outs) w =
  (Normal tt, with_session (appends outs) w,
   flat_map (fun o => deliveries (MsgOutput o) (open_clients w)) outs).
Proof.
  induction outs as [| o outs IH]; intros w Hrun.
  - destruct w as [s rs n r]. reflexivity.
  - cbn [map run flat_map]. unfold bind. unfold step at 1.
    assert (E : existsb (Nat.eqb p) (running w) = true).
    { apply existsb_exists. exists p. split; [assumption | apply Nat.eqb_refl]. }
    rewrite E, onData_eq, IH by exact Hrun.
    rewrite open_clients_with_session by apply addToBuffer_session_frame.
    reflexivity.
Qed.






(** Sockets enter the registry when they connect, not when they send
    [start]: a chunk printed between the two reaches the socket live and is
    part of the snapshot replayed at its [start]. *)
Example output_between_connect_and_start :
  sent_to 2 (effects_of (run late_start (world0 "00000000000000aa"))) =
  [MsgOutput "hi"; MsgOutput "hi"; MsgSession "1111111111111111" true 2 false].
Proof. vm_compute. reflexivity. Qed.

Lemma replayBufferToClient_eq ws w :
  readyState w ws = OPEN ->
  replayBufferToClient ws w =
  (Normal tt, w,
   match outputBuffer (SHARED_SESSION w) with
   | [] => []
   | _ :: _ => [WsSend ws (MsgOutput (snapshot (SHARED_SESSION w)))]
   end).
Proof.
  intros Hopen. unfold replayBufferToClient, bind, get_session, ws_send, snapshot.
  destruct (outputBuffer (SHARED_SESSION w)); cbn; [reflexivity |].
  now rewrite Hopen.
Qed.

(** C10: on a join the replay step sends an output message to the joining
    socket exactly when the buffer holds at least one chunk, and then it is
    the one message carrying the snapshot; with an empty buffer no output
    message is sent. *)
Theorem replay_sends_output_iff_buffered (ws : WebSocket) (data : JsVal)
        (env : Env) (w : World) (p : IPty) :
  pty (SHARED_SESSION w) = Some p ->
  readyState w ws = OPEN ->
  message_tag data = Some "start"%string ->
  exists replay effs,
    replayBufferToClient ws w = (Normal tt, w, replay) /\
    onMessage ws (Some data) env w = (Normal tt, w, effs) /\
    filter is_output (sent_to ws effs) = sent_to ws replay /\
    (outputBuffer (SHARED_SESSION w) = [] -> replay = []) /\
    (outputBuffer (SHARED_SESSION w) <> [] ->
     replay = [WsSend ws (MsgOutput (snapshot (SHARED_SESSION w)))]) /\
    ((exists d, In (WsSend ws (MsgOutput d)) effs) <->
     outputBuffer (SHARED_SESSION w) <> []).
Proof.
  intros Hpty Hopen Htag.
  eexists _, _.
  split; [apply (replayBufferToClient_eq ws w Hopen) |].
  split; [apply (onMessage_join ws data env w p Hpty Htag Hopen) |].
  assert (Hself : (ws =? ws) = true) by apply Nat.eqb_refl.
  destruct (outputBuffer (SHARED_SESSION w)) as [| d b];
    cbn [List.length Nat.ltb Nat.leb app].
  - split; [cbn; rewrite Hself; reflexivity |].
    split; [reflexivity |]. split; [congruence |].
    split; [| congruence].
    intros (d & [H | [H | []]]); discriminate.
  - split; [cbn; rewrite Hself; reflexivity |].
    split; [discriminate |]. split; [reflexivity |].
    split; [discriminate |].
    intros _. eexists. right. left. reflexivity.
Qed.

Lemma replay_sends_output_iff_buffered_witness :
  exists replay effs,
    replayBufferToClient 1 world_abc = (Normal tt, world_abc, replay) /\
    onMessage 1 msg_start (env_ok "1111111111111111") world_abc =
      (Normal tt, world_abc, effs) /\
    filter is_output (sent_to 1 effs) = sent_to 1 replay.
Proof.
  destruct (replay_sends_output_iff_buffered 1
              start_80x24
              (env_ok "1111111111111111") world_abc 0)
    as (replay & effs & H1 & H2 & H3 & _); try reflexivity.
  exists replay, effs. auto.
Defined.

(** ** Process exit *)

Lemma onMessage_create_world ws data env w :
  pty (SHARED_SESSION w) = None ->
  message_tag data = Some "start"%string ->
  spawnThrows env = false ->
  exists r effs,
    onMessage ws (Some data) env w = (r, created env w, effs) /\
    forall c d, ~ In (WsSend c (MsgOutput d)) effs.
Proof.
  intros Hpty Htag Hspawn. tag_is "start"%string.
  rewrite Hpty. mred. rewrite Hspawn. mred.
  destruct (readyState w ws); mred; eexists _, _; (split; [reflexivity |]);
    intros c d Hin; cbn in Hin; intuition discriminate.
Qed.

(** C5 (as the code has it): the exit handler hands one exit message with
    the exit code to every registered open socket and to no other, clears
    the process reference and leaves buffer, identifier and registry as they
    were.  The buffer kept this way is not replayed: the session being
    EMPTY, the next [start] sends no output message, and when its spawn
    succeeds it empties the buffer. *)
Theorem exit_notifies_and_empties (exitCode : Z) (w : World) :
  registry_ok w ->
  exists w' effs,
    onExit exitCode w = (Normal tt, w', effs) /\
    (forall c, In c (clients (SHARED_SESSION w)) -> readyState w c = OPEN ->
               sent_to c effs = [MsgExit exitCode]) /\
    (forall c, ~ (In c (clients (SHARED_SESSION w)) /\ readyState w c = OPEN) ->
               sent_to c effs = []) /\
    EMPTY w' /\
    outputBuffer (SHARED_SESSION w') = outputBuffer (SHARED_SESSION w) /\
    sessionId (SHARED_SESSION w') = sessionId (SHARED_SESSION w) /\
    clients (SHARED_SESSION w') = clients (SHARED_SESSION w) /\
    (forall ws data env, message_tag data = Some "start"%string ->
       (forall c d, ~ In (WsSend c (MsgOutput d))
                         (effects_of (onMessage ws (Some data) env w'))) /\
       (spawnThrows env = false ->
        outputBuffer (SHARED_SESSION (world_of (onMessage ws (Some data) env w'))) = [] /\
        ACTIVE (world_of (onMessage ws (Some data) env w')))).
Proof.
  intros Hok. eexists _, _. split; [apply onExit_eq |].
  split; [| split; [| split; [| split; [| split; [| split]]]]]; try reflexivity.
  - intros c Hin Hop. apply sent_to_deliveries_once.
    + now apply open_clients_NoDup.
    + now apply in_open_clients.
  - intros c Hn. apply sent_to_deliveries_absent. now rewrite in_open_clients.
  - intros ws data env Htag.
    set (w' := with_session (set_pty None) w).
    assert (Hpty : pty (SHARED_SESSION w') = None) by reflexivity.
    split.
    + destruct (spawnThrows env) eqn:Hs.
      * rewrite (onMessage_create_fails ws data env w' Hpty Htag Hs).
        intros c d Hin. cbn in Hin. intuition discriminate.
      * destruct (onMessage_create_world ws data env w' Hpty Htag Hs)
          as (r & effs & -> & Hno). exact Hno.
    + intros Hs.
      destruct (onMessage_create_world ws data env w' Hpty Htag Hs)
        as (r & effs & -> & _).
      split; [reflexivity | discriminate].
Qed.

Lemma exit_notifies_and_empties_witness :
  exists w' effs,
    onExit 0 world_abc = (Normal tt, w', effs) /\
    sent_to 1 effs = [MsgExit 0] /\
    sent_to 2 effs = [] /\
    EMPTY w' /\
    outputBuffer (SHARED_SESSION w') = ["$ "%string].
Proof.
  pose proof world_abc_registry_ok as Hok.
  destruct (exit_notifies_and_empties 0 world_abc Hok)
    as (w' & effs & Heq & Hopen & Hclosed & Hempty & Hbuf & _).
  exists w', effs. split; [exact Heq |].
  split; [apply Hopen; cbn; auto |].
  split; [apply Hclosed; cbn; intros [_ H]; discriminate |].
  split; [exact Hempty |]. rewrite Hbuf. reflexivity.
Defined.

(** C5 (as stated) fails: after the shell that printed ["hi"] has exited,
    the buffer still holds ["hi"], yet the next [start] of client 1 does not
    replay it: the only message client 1 gets is the session message, and
    the buffer is empty afterwards. *)
Lemma no_replay_after_exit :
  let w := world_of (run session_then_exit (world0 "00000000000000aa")) in
  let r := onMessage 1 msg_start (env_ok "3333333333333333") w in
  outputBuffer (SHARED_SESSION w) = ["hi"%string] /\
  EMPTY w /\
  sent_to 1 (effects_of r) = [MsgSession "3333333333333333" true 1 false] /\
  ~ In (WsSend 1 (MsgOutput "hi")) (effects_of r) /\
  outputBuffer (SHARED_SESSION (world_of r)) = [].
Proof.
  cbv zeta.
  split; [vm_compute; reflexivity |].
  split; [vm_compute; reflexivity |].
  split; [vm_compute; reflexivity |].
  split; [| vm_compute; reflexivity].
  vm_compute. intros [H | [H | [H | []]]]; discriminate.
Qed.

(** ** Failures and ignored messages *)

(** C6 (as the code has it): when [pty.spawn] throws during a [start] on an
    EMPTY session, the error is caught by the message handler and written to
    the server's console; no message is sent to any socket, the handler
    completes normally and the world, hence the EMPTY session with its
    identifier and buffer, is untouched. *)
Theorem spawn_failure_is_logged_only (ws : WebSocket) (data : JsVal)
        (env : Env) (w : World) :
  EMPTY w ->
  message_tag data = Some "start"%string ->
  spawnThrows env = true ->
  exists effs,
    onMessage ws (Some data) env w = (Normal tt, w, effs) /\
    effs = [Console LogCreatingShared; Console (LogMessageError SpawnError)] /\
    (forall c, sent_to c effs = []) /\
    EMPTY (world_of (onMessage ws (Some data) env w)).
Proof.
  intros Hempty Htag Hspawn.
  exists [Console LogCreatingShared; Console (LogMessageError SpawnError)].
  rewrite (onMessage_create_fails ws data env w Hempty Htag Hspawn).
  repeat split. exact Hempty.
Qed.

Lemma spawn_failure_is_logged_only_witness :
  exists effs,
    onMessage 1 msg_start (env_spawn_fails "1111111111111111") world_one_client =
      (Normal tt, world_one_client, effs) /\
    sent_to 1 effs = [].
Proof.
  destruct (spawn_failure_is_logged_only 1
              start_80x24
              (env_spawn_fails "1111111111111111") world_one_client)
    as (effs & Heq & _ & Hsent & _); try reflexivity.
  exists effs. split; [exact Heq | apply Hsent].
Defined.

(** C6 (as stated) fails: client 1 asks for a session, the spawn throws,
    and nothing at all is sent to client 1. *)
Lemma spawn_failure_not_surfaced :
  let r := onMessage 1 msg_start (env_spawn_fails "1111111111111111") world_one_client in
  readyState world_one_client 1 = OPEN /\
  In 1 (clients (SHARED_SESSION world_one_client)) /\
  completion_of r = Normal tt /\
  ~ (exists m, In (WsSend 1 m) (effects_of r)).
Proof.
  cbv zeta. split; [reflexivity |]. split; [cbn; auto |].
  split; [reflexivity |].
  vm_compute. intros (m & [H | [H | []]]); discriminate.
Qed.

Lemma run_after_silent_step e es w effs :
  step e w = (Normal tt, w, effs) ->
  run (e :: es) w =
  (completion_of (run es w), world_of (run es w), effs ++ effects_of (run es w)).
Proof.
  intros H. cbn [run]. unfold bind. rewrite H.
  destruct (run es w) as [[r w'] effs']. reflexivity.
Qed.

(** C7: an [input] message on an EMPTY session completes normally, changes
    nothing and has no effect at all; whatever happens afterwards happens
    exactly as if the message had never arrived, so no later process is
    written the dropped data. *)
Theorem input_on_empty_is_dropped (ws : WebSocket) (data : JsVal)
        (env : Env) (w : World) :
  EMPTY w ->
  message_tag data = Some "input"%string ->
  onMessage ws (Some data) env w = (Normal tt, w, []) /\
  forall es, run (EvMessage ws (Some data) env :: es) w = run es w.
Proof.
  intros Hempty Htag.
  pose proof (onMessage_input_empty ws data env w Hempty Htag) as H.
  split; [exact H |].
  intros es. rewrite (run_after_silent_step (EvMessage ws (Some data) env) es w [] H).
  destruct (run es w) as [[r w'] effs']. reflexivity.
Qed.

Lemma input_on_empty_is_dropped_witness :
  run [EvMessage 1 (Some input_ls) (env_ok "1111111111111111");
       EvMessage 1 msg_start (env_ok "2222222222222222")] world_one_client =
  run [EvMessage 1 msg_start (env_ok "2222222222222222")] world_one_client.
Proof.
  apply (input_on_empty_is_dropped 1
           input_ls
           (env_ok "1111111111111111") world_one_client); reflexivity.
Defined.

(** C9: a message that is not JSON, or whose tag is none of [start], [new],
    [input], [resize], makes the handler complete normally with the world
    unchanged (session, registry, every socket's state, processes); the only
    trace is at most one line on the server's console, and the rest of the
    run is what it would have been without the message. *)
Theorem malformed_or_unknown_is_ignored (ws : WebSocket)
        (parsed : option JsVal) (env : Env) (w : World) :
  malformed_or_unknown parsed ->
  exists effs,
    onMessage ws parsed env w = (Normal tt, w, effs) /\
    forallb is_console effs = true /\
    List.length effs <= 1 /\
    (parsed = None -> effs = [Console (LogMessageError SyntaxError)]) /\
    forall es,
      run (EvMessage ws parsed env :: es) w =
      (completion_of (run es w), world_of (run es w), effs ++ effects_of (run es w)).
Proof.
  intros Hbad.
  destruct (onMessage_unknown ws parsed env w Hbad) as [H | (e & H)].
  - exists []. split; [exact H |]. split; [reflexivity |].
    split; [cbn; lia |]. split.
    + intros ->. cbv in H. discriminate.
    + intros es. apply (run_after_silent_step (EvMessage ws parsed env) es w _ H).
  - exists [Console (LogMessageError e)]. split; [exact H |].
    split; [reflexivity |]. split; [cbn; lia |]. split.
    + intros ->. cbv in H. injection H as <-. reflexivity.
    + intros es. apply (run_after_silent_step (EvMessage ws parsed env) es w _ H).
Qed.

Lemma malformed_or_unknown_is_ignored_witness :
  (exists effs,
     onMessage 1 None (env_ok "1111111111111111") world_abc =
       (Normal tt, world_abc, effs)) /\
  (exists effs,
     onMessage 1 (Some (JObj [("type", JStr "stop")]%string))
               (env_ok "1111111111111111") world_abc =
       (Normal tt, world_abc, effs)) /\
  (exists effs,
     onMessage 1 (Some JNull) (env_ok "1111111111111111") world_abc =
       (Normal tt, world_abc, effs)).
Proof.
  split; [| split].
  - destruct (malformed_or_unknown_is_ignored 1 None
                (env_ok "1111111111111111") world_abc I) as (effs & H & _).
    now exists effs.
  - destruct (malformed_or_unknown_is_ignored 1
                (Some (JObj [("type", JStr "stop")]%string))
                (env_ok "1111111111111111") world_abc eq_refl) as (effs & H & _).
    now exists effs.
  - destruct (malformed_or_unknown_is_ignored 1 (Some JNull)
                (env_ok "1111111111111111") world_abc eq_refl) as (effs & H & _).
    now exists effs.
Defined.

(** ** Reset *)

(** Right after a [new] whose spawn succeeds the session is ACTIVE on the
    process just spawned, the identifier is the freshly drawn one and the
    buffer is empty. *)
Lemma new_leaves_session_active ws data env w :
  message_tag data = Some "new"%string ->
  spawnThrows env = false ->
  let w' := world_of (onMessage ws (Some data) env w) in
  completion_of (onMessage ws (Some data) env w) = Normal tt /\
  pty (SHARED_SESSION w') = Some (spawned w) /\
  In (spawned w) (running w') /\
  sessionId (SHARED_SESSION w') = randomHex env /\
  outputBuffer (SHARED_SESSION w') = [].
Proof.
  intros Htag Hspawn.
  apply tag_inv in Htag as (fs & -> & Htag).
  rewrite (onMessage_new ws fs env w Htag Hspawn). cbn.
  repeat split. apply in_or_app. right. now left.
Qed.

Lemma step_exit_eq p exitCode w :
  In p (running w) ->
  step (EvPtyExit p exitCode) w =
  (Normal tt, exited p w, deliveries (MsgExit exitCode) (open_clients w)).
Proof.
  intros Hp. unfold step.
  assert (E : existsb (Nat.eqb p) (running w) = true).
  { apply existsb_exists. exists p. split; [assumption | apply Nat.eqb_refl]. }
  rewrite E. unfold bind, process_gone. rewrite onExit_eq. reflexivity.
Qed.

(** The exit event of the process a [new] has killed arrives later and runs
    the same exit callback: the reference to the replacement is cleared
    while the replacement keeps running. *)
Lemma predecessor_exit_clears_replacement ws data env w old exitCode :
  pty (SHARED_SESSION w) = Some old ->
  In old (running w) ->
  old <> spawned w ->
  message_tag data = Some "new"%string ->
  spawnThrows env = false ->
  let w1 := world_of (onMessage ws (Some data) env w) in
  let w2 := world_of (step (EvPtyExit old exitCode) w1) in
  pty (SHARED_SESSION w1) = Some (spawned w) /\
  pty (SHARED_SESSION w2) = None /\
  In (spawned w) (running w2).
Proof.
  intros Hpty Hold Hne Htag Hspawn.
  apply tag_inv in Htag as (fs & -> & Htag).
  rewrite (onMessage_new ws fs env w Htag Hspawn). cbn [world_of fst snd].
  rewrite step_exit_eq by (cbn; apply in_or_app; now left).
  cbn [world_of fst snd]. split; [reflexivity |]. split; [reflexivity |].
  cbn [exited running created]. apply filter_In. split.
  - apply in_or_app. right. now left.
  - apply negb_true_iff, Nat.eqb_neq. congruence.
Qed.

(** C2 at a concrete run: client 1 starts the session (process 0) and resets
    it (process 0 killed, process 1 spawned).  After the reset the session
    is ACTIVE on process 1 with a new identifier and an empty buffer; once
    the exit event of process 0 is handled the session is EMPTY although
    process 1 is running, and client 1 has been told that the shell exited.
    What process 0 still prints before it exits lands in the new buffer. *)
Theorem reset_then_predecessor_exit :
  let before := run session_then_reset (world0 "00000000000000aa") in
  let after := run (session_then_reset ++ [EvPtyExit 0 0%Z]) (world0 "00000000000000aa") in
  let late := run (session_then_reset ++ [EvPtyData 0 "logout"]) (world0 "00000000000000aa") in
  completion_of before = Normal tt /\
  pty (SHARED_SESSION (world_of before)) = Some 1 /\
  running (world_of before) = [0; 1] /\
  sessionId (SHARED_SESSION (world_of before)) = "2222222222222222"%string /\
  outputBuffer (SHARED_SESSION (world_of before)) = [] /\
  completion_of after = Normal tt /\
  pty (SHARED_SESSION (world_of after)) = None /\
  running (world_of after) = [1] /\
  sent_to 1 (effects_of after) =
    [MsgSession "1111111111111111" true 1 false;
     MsgSession "2222222222222222" true 1 true;
     MsgExit 0] /\
  outputBuffer (SHARED_SESSION (world_of late)) = ["logout"%string].
Proof.
  cbv zeta. repeat split; vm_compute; reflexivity.
Qed.

(** ** The registry stays a set *)

Lemma set_add_NoDup x l : NoDup l -> NoDup (set_add x l).
Proof.
  intros H. unfold set_add.
  destruct (existsb (Nat.eqb x) l) eqn:E; [assumption |].
  apply NoDup_app; [assumption | repeat constructor; intros [] |].
  intros a Ha [Hx | []]. subst a.
  assert (existsb (Nat.eqb x) l = true); [| congruence].
  apply existsb_exists. exists x. split; [assumption | apply Nat.eqb_refl].
Qed.

(** No message changes the registry. *)
Lemma onMessage_clients ws parsed env w :
  clients (SHARED_SESSION (world_of (onMessage ws parsed env w))) =
  clients (SHARED_SESSION w).
Proof.
  destruct parsed as [data |]; [| reflexivity].
  destruct data; try reflexivity.
  mnorm.
  destruct (strict_eq_str (lookup_field "type" fields) "start"); mred.
  { destruct (pty (SHARED_SESSION w)); mred.
    - destruct (0 <? _); mred;
        destruct (readyState w ws) eqn:Er; mred; repeat (rewrite Er; mred);
        reflexivity.
    - destruct (spawnThrows env); mred; [reflexivity |].
      destruct (readyState w ws); reflexivity. }
  destruct (strict_eq_str (lookup_field "type" fields) "new"); mred.
  { destruct (pty (SHARED_SESSION w)); mred;
      (destruct (spawnThrows env); mred; [reflexivity |]);
      rewrite forEach_send_if_open; reflexivity. }
  destruct (strict_eq_str (lookup_field "type" fields) "input"); mred.
  { destruct (pty (SHARED_SESSION w)); mred; [| reflexivity].
    destruct (ptyCallThrows env); reflexivity. }
  destruct (strict_eq_str (lookup_field "type" fields) "resize"); mred.
  { destruct (pty (SHARED_SESSION w)); mred; [| reflexivity].
    destruct (ptyCallThrows env); reflexivity. }
  reflexivity.
Qed.

Lemma step_preserves_registry e w :
  registry_ok w -> registry_ok (world_of (step e w)).
Proof.
  unfold registry_ok. intros H.
  destruct e as [ws a | ws parsed env | ws | ws r | p o | p c]; cbn [step].
  - unfold onConnection. destruct a; cbn; [now apply set_add_NoDup | assumption].
  - now rewrite onMessage_clients.
  - rewrite onClose_eq. cbn. now apply NoDup_filter.
  - exact H.
  - destruct (existsb (Nat.eqb p) (running w)); [| exact H].
    rewrite onData_eq. cbn.
    now rewrite (proj1 (proj2 (addToBuffer_session_frame o (SHARED_SESSION w)))).
  - destruct (existsb (Nat.eqb p) (running w)); [| exact H].
    unfold bind, process_gone. rewrite onExit_eq. exact H.
Qed.

Lemma run_preserves_registry es : forall w,
  registry_ok w -> registry_ok (world_of (run es w)).
Proof.
  induction es as [| e es IH]; intros w H; [exact H |].
  cbn [run]. unfold bind.
  pose proof (step_preserves_registry e w H) as Hs.
  destruct (step e w) as [[[[] | err] w1] e1]; cbn [world_of fst snd] in *.
  - specialize (IH w1 Hs). destruct (run es w1) as [[r w2] e2]. exact IH.
  - exact Hs.
Qed.

(** * Further properties of the shared session *)

(** ** What a message can do to the world *)

Lemma onMessage_world ws parsed env w :
  let w' := world_of (onMessage ws parsed env w) in
  completion_of (onMessage ws parsed env w) = Normal tt /\
  clients (SHARED_SESSION w') = clients (SHARED_SESSION w) /\
  maxBufferLines (SHARED_SESSION w') = maxBufferLines (SHARED_SESSION w) /\
  readyState w' = readyState w /\
  (outputBuffer (SHARED_SESSION w') = outputBuffer (SHARED_SESSION w) \/
   outputBuffer (SHARED_SESSION w') = []) /\
  process_outcome w w'.
Proof.
  assert (Hsame : forall c effs,
             let r := (@Normal unit c, w, effs) in
             completion_of r = Normal c /\
             clients (SHARED_SESSION (world_of r)) = clients (SHARED_SESSION w) /\
             maxBufferLines (SHARED_SESSION (world_of r)) = maxBufferLines (SHARED_SESSION w) /\
             readyState (world_of r) = readyState w /\
             (outputBuffer (SHARED_SESSION (world_of r)) = outputBuffer (SHARED_SESSION w) \/
              outputBuffer (SHARED_SESSION (world_of r)) = []) /\
             process_outcome w (world_of r)).
  { intros c effs. cbn. repeat split; auto. left. auto. }
  cbv zeta.
  destruct parsed as [data |]; [| apply (Hsame tt)].
  destruct data; try apply (Hsame tt).
  mnorm.
  destruct (strict_eq_str (lookup_field "type" fields) "start"); mred.
  { destruct (pty (SHARED_SESSION w)) eqn:Hpty; mred.
    - destruct (0 <? _); mred;
        destruct (readyState w ws) eqn:Er; mred; repeat (rewrite Er; mred);
        apply (Hsame tt).
    - destruct (spawnThrows env); mred; [apply (Hsame tt) |].
      destruct (readyState w ws); cbn; repeat split; auto;
        right; right; auto. }
  destruct (strict_eq_str (lookup_field "type" fields) "new"); mred.
  { destruct (pty (SHARED_SESSION w)) eqn:Hpty; mred;
      (destruct (spawnThrows env); mred;
       [cbn; repeat split; auto; right; left; auto |]);
      rewrite forEach_send_if_open; cbn; repeat split; auto;
      right; right; auto. }
  destruct (strict_eq_str (lookup_field "type" fields) "input"); mred.
  { destruct (pty (SHARED_SESSION w)); mred; [| apply (Hsame tt)].
    destruct (ptyCallThrows env); apply (Hsame tt). }
  destruct (strict_eq_str (lookup_field "type" fields) "resize"); mred.
  { destruct (pty (SHARED_SESSION w)); mred; [| apply (Hsame tt)].
    destruct (ptyCallThrows env); apply (Hsame tt). }
  apply (Hsame tt).
Qed.

(** ** No handler lets an error escape *)

Lemma step_normal e w : completion_of (step e w) = Normal tt.
Proof.
  destruct e as [ws a | ws parsed env | ws | ws r | p o | p c]; cbn [step].
  - unfold onConnection. destruct a; reflexivity.
  - apply (onMessage_world ws parsed env w).
  - reflexivity.
  - reflexivity.
  - destruct (existsb (Nat.eqb p) (running w)); [| reflexivity].
    rewrite onData_eq. reflexivity.
  - destruct (existsb (Nat.eqb p) (running w)); [| reflexivity].
    unfold bind, process_gone. rewrite onExit_eq. reflexivity.
Qed.

Lemma run_cons e es w :
  run (e :: es) w =
  (completion_of (run es (world_of (step e w))),
   world_of (run es (world_of (step e w))),
   effects_of (step e w) ++ effects_of (run es (world_of (step e w)))).
Proof.
  cbn [run]. unfold bind.
  pose proof (step_normal e w) as Hn.
  destruct (step e w) as [[c w1] e1]. cbn in Hn. subst c.
  cbn [world_of effects_of fst snd].
  destruct (run es w1) as [[r w2] e2]. reflexivity.
Qed.

Lemma run_app es1 : forall es2 w,
  run (es1 ++ es2) w =
  (completion_of (run es2 (world_of (run es1 w))),
   world_of (run es2 (world_of (run es1 w))),
   effects_of (run es1 w) ++ effects_of (run es2 (world_of (run es1 w)))).
Proof.
  induction es1 as [| e es1 IH]; intros es2 w.
  - cbn. destruct (run es2 w) as [[r w2] e2]. reflexivity.
  - cbn [app]. rewrite !run_cons, IH. cbn [world_of effects_of completion_of fst snd].
    now rewrite app_assoc.
Qed.

Lemma stepChecked_eq e w :
  match e with
  | EvConnection ws false => readyState w ws <> CONNECTING
  | _ => True
  end ->
  stepChecked e w = step e w.
Proof.
  destruct e as [ws a | ws parsed env | ws | ws r | p o | p c]; try reflexivity.
  destruct a; [reflexivity |]. cbn. unfold ws_close, emit.
  intros H. destruct (readyState w ws); [congruence | reflexivity ..].
Qed.

(** X1: as long as no connection is rejected while its socket is still
    CONNECTING (the one library call outside any [try] that can throw, and
    a server-side socket arrives OPEN), every handler completes normally,
    whatever the events and whatever else the state of sockets and
    processes: sends to registered sockets that are not open, replies to a
    requester that is not open, a spawn or a pty call that throws,
    unparseable messages.  The event loop with [ws.close] throwing as the
    library does then is the plain event loop and is never left through an
    exception. *)
Theorem run_never_throws (es : list Event) (w : World) :
  rejections_ready es w ->
  runChecked es w = run es w /\
  completion_of (runChecked es w) = Normal tt.
Proof.
  revert w. induction es as [| e es IH]; intros w H; [split; reflexivity |].
  destruct H as [Hhead Hrest].
  assert (E : runChecked (e :: es) w = run (e :: es) w).
  { cbn [runChecked run]. unfold bind.
    rewrite (stepChecked_eq e w Hhead).
    pose proof (step_normal e w) as Hn.
    destruct (step e w) as [[c w1] e1]. cbn in Hn, Hrest. subst c.
    now rewrite (proj1 (IH w1 Hrest)). }
  split; [exact E |].
  rewrite E, run_cons. cbn [completion_of fst].
  rewrite <- (proj1 (IH _ Hrest)). apply (IH _ Hrest).
Qed.

Lemma run_never_throws_witness :
  completion_of
    (runChecked [EvPtyData 0 "x";
                 EvMessage 4 msg_start (env_ok "1111111111111111");
                 EvMessage 1 msg_new (env_spawn_fails "2222222222222222");
                 EvMessage 2 None (env_ok "3333333333333333");
                 EvConnection 9 false;
                 EvPtyExit 0 0%Z] world_abc) = Normal tt.
Proof.
  apply (run_never_throws
           [EvPtyData 0 "x";
            EvMessage 4 msg_start (env_ok "1111111111111111");
            EvMessage 1 msg_new (env_spawn_fails "2222222222222222");
            EvMessage 2 None (env_ok "3333333333333333");
            EvConnection 9 false;
            EvPtyExit 0 0%Z] world_abc).
  cbn. repeat split; discriminate.
Defined.

(** The proviso is needed: rejecting socket 4 of [world_abc], which is
    still CONNECTING, leaves the handler through the exception of
    [ws.close]. *)
Example rejecting_a_connecting_socket_throws :
  completion_of (runChecked [EvConnection 4 false] world_abc) = Thrown SocketError.
Proof. reflexivity. Qed.

(** ** Invariants of the session *)

Lemma NoDup_snoc_fresh (l : list nat) n :
  NoDup l -> (forall p, In p l -> p < n) -> NoDup (l ++ [n]).
Proof.
  intros Hnd Hlt. apply NoDup_app; [assumption | repeat constructor; intros [] |].
  intros a Ha [Hx | []]. subst a. apply Hlt in Ha. lia.
Qed.

Lemma step_preserves_sound e w :
  session_sound w -> session_sound (world_of (step e w)).
Proof.
  intros (Hlen & Hcap & Hlt & Hnd & Hpty).
  destruct e as [ws a | ws parsed env | ws | ws r | p o | p c]; cbn [step].
  - unfold onConnection. destruct a; cbn; repeat split; assumption.
  - destruct (onMessage_world ws parsed env w)
      as (_ & _ & Hmax & _ & Hbuf & Hproc).
    set (w' := world_of (onMessage ws parsed env w)) in *.
    unfold session_sound. rewrite Hmax.
    split; [destruct Hbuf as [-> | ->]; cbn; [assumption | lia] |].
    split; [assumption |].
    destruct Hproc as [(Hp & Hr & Hs) | [(Hp & Hr & Hs) | (Hp & Hr & Hs)]];
      rewrite Hp, Hr, Hs.
    + repeat split; assumption.
    + repeat split; try assumption. discriminate.
    + split; [| split].
      * intros q Hq. apply in_app_or in Hq as [Hq | [<- | []]]; [| lia].
        apply Hlt in Hq. lia.
      * now apply NoDup_snoc_fresh.
      * intros q [= <-]. apply in_or_app. right. now left.
  - rewrite onClose_eq. cbn. repeat split; assumption.
  - cbn. repeat split; assumption.
  - destruct (existsb (Nat.eqb p) (running w)); [| cbn; repeat split; assumption].
    rewrite onData_eq. cbn [world_of fst snd with_session SHARED_SESSION running spawned].
    destruct (addToBuffer_session_frame o (SHARED_SESSION w)) as (Hp & _ & Hm & _).
    unfold session_sound, with_session. cbn [SHARED_SESSION running spawned].
    rewrite Hm, Hp, (addToBuffer_session_buffer o (SHARED_SESSION w) Hcap),
      most_recent_length.
    repeat split; try assumption. lia.
  - destruct (existsb (Nat.eqb p) (running w)); [| cbn; repeat split; assumption].
    unfold bind, process_gone. rewrite onExit_eq. cbn.
    repeat split; try assumption.
    + intros q Hq. apply filter_In in Hq as [Hq _]. now apply Hlt.
    + now apply NoDup_filter.
    + discriminate.
Qed.

Lemma run_preserves_sound es : forall w,
  session_sound w -> session_sound (world_of (run es w)).
Proof.
  induction es as [| e es IH]; intros w H; [exact H |].
  rewrite run_cons. cbn [world_of fst snd].
  apply IH. now apply step_preserves_sound.
Qed.

Lemma world0_sound id0 : session_sound (world0 id0).
Proof.
  unfold session_sound, world0; cbn.
  split; [lia |]. split; [lia |]. split; [intros p [] |].
  split; [constructor | discriminate].
Qed.

(** X2: in every state the server can reach, whatever the interleaving of
    connections, messages, resets, output and exits, the buffer holds at
    most 5000 chunks. *)
Theorem buffer_never_exceeds_5000_chunks (id0 : string) (es : list Event) :
  let w := world_of (run es (world0 id0)) in
  maxBufferLines (SHARED_SESSION w) = 5000 /\
  List.length (outputBuffer (SHARED_SESSION w)) <= 5000.
Proof.
  cbv zeta.
  assert (Hmax : forall es w, maxBufferLines (SHARED_SESSION (world_of (run es w))) =
                              maxBufferLines (SHARED_SESSION w)).
  { clear. induction es as [| e es IH]; intros w; [reflexivity |].
    rewrite run_cons. cbn [world_of fst snd]. rewrite IH.
    destruct e as [ws a | ws parsed env | ws | ws r | p o | p c]; cbn [step].
    - unfold onConnection. destruct a; reflexivity.
    - apply (onMessage_world ws parsed env w).
    - reflexivity.
    - reflexivity.
    - destruct (existsb (Nat.eqb p) (running w)); [| reflexivity].
      rewrite onData_eq. apply addToBuffer_session_frame.
    - destruct (existsb (Nat.eqb p) (running w)); [| reflexivity].
      unfold bind, process_gone. rewrite onExit_eq. reflexivity. }
  pose proof (run_preserves_sound es (world0 id0) (world0_sound id0)) as (Hlen & _).
  rewrite Hmax in *. split; [reflexivity | exact Hlen].
Qed.

(** X3: in every reachable state the process reference, when it is set,
    designates a process whose exit event has not been handled: input,
    resize and kill are never addressed to a process known to have
    exited. *)
Theorem process_reference_never_dangles (id0 : string) (es : list Event) (p : IPty) :
  let w := world_of (run es (world0 id0)) in
  pty (SHARED_SESSION w) = Some p ->
  In p (running w) /\ p < spawned w.
Proof.
  cbv zeta. intros Hp.
  pose proof (run_preserves_sound es (world0 id0) (world0_sound id0))
    as (_ & _ & Hlt & _ & Hpty).
  split; [now apply Hpty | apply Hlt; now apply Hpty].
Qed.

Lemma process_reference_never_dangles_witness :
  let w := world_of (run session_then_reset (world0 "00000000000000aa")) in
  In 1 (running w) /\ 1 < spawned w.
Proof.
  apply (process_reference_never_dangles "00000000000000aa" session_then_reset 1).
  reflexivity.
Defined.

(** ** Reset, input and resize *)

Lemma sent_to_kill_effects ws w : sent_to ws (kill_effects w) = [].
Proof. unfold kill_effects. destruct (pty (SHARED_SESSION w)); reflexivity. Qed.

(** X4: a [new] whose spawn succeeds kills the referenced process if there
    is one, spawns the replacement, and hands the new-session message (new
    identifier, registry size, [isNew]) exactly once to every registered
    open socket and to no other socket; the requester gets no reply of its
    own. *)
Theorem new_announces_to_every_open_client (ws : WebSocket) (data : JsVal)
        (env : Env) (w : World) :
  registry_ok w ->
  message_tag data = Some "new"%string ->
  spawnThrows env = false ->
  exists effs,
    onMessage ws (Some data) env w = (Normal tt, created env w, effs) /\
    (forall c, In c (clients (SHARED_SESSION w)) -> readyState w c = OPEN ->
       sent_to c effs =
       [MsgSession (randomHex env) true (List.length (clients (SHARED_SESSION w))) true]) /\
    (forall c, ~ (In c (clients (SHARED_SESSION w)) /\ readyState w c = OPEN) ->
       sent_to c effs = []) /\
    (forall q, In (PtyKill q) effs <-> pty (SHARED_SESSION w) = Some q) /\
    (forall q c r, In (PtySpawn q c r) effs -> q = spawned w).
Proof.
  intros Hok Htag Hspawn.
  apply tag_inv in Htag as (fs & -> & Htag).
  eexists. split; [apply (onMessage_new ws fs env w Htag Hspawn) |].
  split; [| split; [| split]].
  - intros c Hin Hop.
    rewrite !sent_to_app, sent_to_kill_effects. cbn [app].
    rewrite sent_to_deliveries_once.
    + reflexivity.
    + now apply open_clients_NoDup.
    + now apply in_open_clients.
  - intros c Hn.
    rewrite !sent_to_app, sent_to_kill_effects. cbn [app].
    rewrite sent_to_deliveries_absent; [reflexivity |].
    now rewrite in_open_clients.
  - intros q. unfold spawn_effect. rewrite !in_app_iff. cbn [In]. split.
    + intros [Hin | [[Hin | []] | [Hin | [Hin | []]]]]; try discriminate.
      * unfold kill_effects in Hin.
        destruct (pty (SHARED_SESSION w)); [| destruct Hin].
        destruct Hin as [[= ->] | []]. reflexivity.
      * apply deliveries_only_sends in Hin as (c & _ & Hc). discriminate.
    + intros Hq. left. unfold kill_effects. rewrite Hq. now left.
  - intros q c r. unfold spawn_effect. rewrite !in_app_iff. cbn [In].
    intros [Hin | [[Hin | []] | [Hin | [Hin | []]]]]; try discriminate.
    + unfold kill_effects in Hin.
      destruct (pty (SHARED_SESSION w)); [| destruct Hin].
      destruct Hin as [Hin | []]. discriminate.
    + now injection Hin as <- _ _.
    + apply deliveries_only_sends in Hin as (c' & _ & Hc). discriminate.
Qed.

Lemma new_announces_to_every_open_client_witness :
  exists effs,
    onMessage 2 msg_new (env_ok "2222222222222222") world_abc =
      (Normal tt, created (env_ok "2222222222222222") world_abc, effs) /\
    sent_to 1 effs = [MsgSession "2222222222222222" true 4 true] /\
    sent_to 2 effs = [].
Proof.
  destruct (new_announces_to_every_open_client 2 (JObj [("type", JStr "new")]%string)
              (env_ok "2222222222222222") world_abc world_abc_registry_ok
              eq_refl eq_refl)
    as (effs & Heq & Hopen & Hclosed & _).
  exists effs. split; [exact Heq |].
  split; [apply Hopen; cbn; auto |].
  apply Hclosed. cbn. intros [_ H]. discriminate.
Defined.

Lemma onMessage_new_fails ws fs env w :
  lookup_field "type" fs = JStr "new" ->
  spawnThrows env = true ->
  onMessage ws (Some (JObj fs)) env w =
  (Normal tt, reset_failed env w,
   kill_effects w ++ [Console (LogMessageError SpawnError)]).
Proof.
  intros Htag Hspawn. mnorm. rewrite Htag.
  change (strict_eq_str (JStr "new") "start") with false.
  change (strict_eq_str (JStr "new") "new") with true. mred.
  unfold kill_effects.
  destruct (pty (SHARED_SESSION w)) as [old |] eqn:Hpty; mred;
    rewrite Hspawn; mred;
    unfold reset_failed, with_session, set_sessionId, set_outputBuffer;
    cbn [SHARED_SESSION pty clients outputBuffer maxBufferLines sessionId
         readyState spawned running];
    rewrite ?Hpty; reflexivity.
Qed.

(** X5: when the spawn of a [new] throws, the old process has already been
    asked to die and the buffer and identifier have already been replaced:
    the session is left EMPTY with an empty buffer and the freshly drawn
    identifier, the error goes to the console, and no socket is sent
    anything. *)
Theorem failed_reset_leaves_session_empty (ws : WebSocket) (data : JsVal)
        (env : Env) (w : World) :
  message_tag data = Some "new"%string ->
  spawnThrows env = true ->
  exists w' effs,
    onMessage ws (Some data) env w = (Normal tt, w', effs) /\
    EMPTY w' /\
    outputBuffer (SHARED_SESSION w') = [] /\
    sessionId (SHARED_SESSION w') = randomHex env /\
    clients (SHARED_SESSION w') = clients (SHARED_SESSION w) /\
    running w' = running w /\
    (forall q, In (PtyKill q) effs <-> pty (SHARED_SESSION w) = Some q) /\
    In (Console (LogMessageError SpawnError)) effs /\
    (forall c, sent_to c effs = []).
Proof.
  intros Htag Hspawn.
  apply tag_inv in Htag as (fs & -> & Htag).
  eexists _, _. split; [apply (onMessage_new_fails ws fs env w Htag Hspawn) |].
  do 5 (split; [reflexivity |]).
  split; [| split].
  - intros q. unfold kill_effects.
    destruct (pty (SHARED_SESSION w)) as [old |]; cbn; split.
    + intros [[= ->] | [H | []]]; [reflexivity | discriminate].
    + intros [= ->]. now left.
    + intros [H | []]. discriminate.
    + discriminate.
  - apply in_or_app. right. now left.
  - intros c. now rewrite sent_to_app, sent_to_kill_effects.
Qed.

Lemma failed_reset_leaves_session_empty_witness :
  exists w' effs,
    onMessage 1 msg_new (env_spawn_fails "2222222222222222") world_abc =
      (Normal tt, w', effs) /\
    EMPTY w' /\ In (PtyKill 0) effs /\ sent_to 1 effs = [].
Proof.
  destruct (failed_reset_leaves_session_empty 1 (JObj [("type", JStr "new")]%string)
              (env_spawn_fails "2222222222222222") world_abc eq_refl eq_refl)
    as (w' & effs & Heq & Hempty & _ & _ & _ & _ & Hkill & _ & Hsent).
  exists w', effs. split; [exact Heq |]. split; [exact Hempty |].
  split; [apply Hkill; reflexivity | apply Hsent].
Defined.

(** X6: an [input] on an ACTIVE session hands [data.data], as it came, to
    the referenced process and does nothing else: the world is unchanged
    and no socket is sent anything (the server does not echo); when the pty
    library rejects the write the error is logged and swallowed. *)
Theorem input_on_active_is_forwarded (ws : WebSocket) (data : JsVal)
        (env : Env) (w : World) (p : IPty) :
  pty (SHARED_SESSION w) = Some p ->
  message_tag data = Some "input"%string ->
  onMessage ws (Some data) env w =
  (Normal tt, w,
   if ptyCallThrows env then [Console (LogMessageError PtyError)]
   else [PtyWrite p (prop_of data "data")]) /\
  forall c, sent_to c (effects_of (onMessage ws (Some data) env w)) = [].
Proof.
  intros Hpty Htag.
  assert (E : onMessage ws (Some data) env w =
              (Normal tt, w,
               if ptyCallThrows env then [Console (LogMessageError PtyError)]
               else [PtyWrite p (prop_of data "data")])).
  { tag_is "input"%string. rewrite Hpty. mred.
    destruct (ptyCallThrows env); reflexivity. }
  split; [exact E |]. intros c. rewrite E.
  destruct (ptyCallThrows env); reflexivity.
Qed.

Lemma input_on_active_is_forwarded_witness :
  onMessage 1 (Some input_ls) (env_ok "1111111111111111") world_abc =
  (Normal tt, world_abc, [PtyWrite 0 (JStr "ls")]).
Proof.
  apply (input_on_active_is_forwarded 1 input_ls (env_ok "1111111111111111")
           world_abc 0); reflexivity.
Defined.

(** X7: a [resize] never changes the world and never sends to a socket: on
    an EMPTY session it is dropped without trace, on an ACTIVE one
    [data.cols] and [data.rows] go, unchecked and without defaults, to the
    referenced process, and a rejection by the pty library is logged and
    swallowed. *)
Theorem resize_is_forwarded_or_dropped (ws : WebSocket) (data : JsVal)
        (env : Env) (w : World) :
  message_tag data = Some "resize"%string ->
  onMessage ws (Some data) env w =
  (Normal tt, w,
   match pty (SHARED_SESSION w) with
   | None => []
   | Some p =>
       if ptyCallThrows env then [Console (LogMessageError PtyError)]
       else [PtyResize p (prop_of data "cols") (prop_of data "rows")]
   end).
Proof.
  intros Htag. tag_is "resize"%string.
  destruct (pty (SHARED_SESSION w)); mred; [| reflexivity].
  destruct (ptyCallThrows env); reflexivity.
Qed.

Lemma resize_is_forwarded_or_dropped_witness :
  onMessage 1 (Some (JObj [("type", JStr "resize"); ("cols", JNum 120)]%string))
            (env_ok "1111111111111111") world_abc =
  (Normal tt, world_abc, [PtyResize 0 (JNum 120) JUndefined]).
Proof.
  apply (resize_is_forwarded_or_dropped 1
           (JObj [("type", JStr "resize"); ("cols", JNum 120)]%string)
           (env_ok "1111111111111111") world_abc).
  reflexivity.
Defined.

(** ** Creating a session and catching up *)

Lemma js_or_idem a d : js_or (js_or a d) d = js_or a d.
Proof.
  unfold js_or. destruct (truthy a) eqn:E; [now rewrite E |].
  destruct (truthy d); reflexivity.
Qed.

Lemma appends_session_frame ds : forall s,
  pty (appends ds s) = pty s /\
  clients (appends ds s) = clients s /\
  maxBufferLines (appends ds s) = maxBufferLines s /\
  sessionId (appends ds s) = sessionId s.
Proof.
  induction ds as [| d ds IH]; intros s; [cbn; auto |].
  change (appends (d :: ds) s) with (appends ds (addToBuffer_session d s)).
  destruct (IH (addToBuffer_session d s)) as (-> & -> & -> & ->).
  apply addToBuffer_session_frame.
Qed.

(** X8: a [start] on an EMPTY session whose spawn succeeds makes the session
    ACTIVE on a process never seen before, with the freshly drawn identifier
    and an empty buffer (whatever was buffered is discarded unsent); the
    process gets the requested geometry, 80 columns and 24 rows standing in
    for a missing, zero or otherwise falsy value; the requester is sent one
    session message and nothing is sent to any other socket. *)
Theorem start_on_empty_creates (ws : WebSocket) (data : JsVal)
        (env : Env) (w : World) :
  EMPTY w ->
  message_tag data = Some "start"%string ->
  spawnThrows env = false ->
  readyState w ws = OPEN ->
  exists w',
    onMessage ws (Some data) env w =
    (Normal tt, w',
     [Console LogCreatingShared;
      PtySpawn (spawned w)
               (if truthy (prop_of data "cols") then prop_of data "cols" else JNum 80)
               (if truthy (prop_of data "rows") then prop_of data "rows" else JNum 24);
      WsSend ws (MsgSession (randomHex env) true
                            (List.length (clients (SHARED_SESSION w))) false)]) /\
    pty (SHARED_SESSION w') = Some (spawned w) /\
    running w' = running w ++ [spawned w] /\
    sessionId (SHARED_SESSION w') = randomHex env /\
    outputBuffer (SHARED_SESSION w') = [] /\
    clients (SHARED_SESSION w') = clients (SHARED_SESSION w).
Proof.
  intros Hempty Htag Hspawn Hopen.
  apply tag_inv in Htag as (fs & -> & Htag).
  exists (created env w).
  rewrite (onMessage_create ws fs env w Hempty Htag Hspawn Hopen).
  unfold spawn_effect. rewrite !js_or_idem. unfold js_or. cbn [prop_of].
  repeat split.
Qed.

Lemma start_on_empty_creates_witness :
  exists w',
    onMessage 1 (Some (JObj [("type", JStr "start"); ("cols", JNum 0)]%string))
              (env_ok "1111111111111111") world_one_client =
    (Normal tt, w',
     [Console LogCreatingShared; PtySpawn 0 (JNum 80) (JNum 24);
      WsSend 1 (MsgSession "1111111111111111" true 1 false)]).
Proof.
  destruct (start_on_empty_creates 1
              (JObj [("type", JStr "start"); ("cols", JNum 0)]%string)
              (env_ok "1111111111111111") world_one_client
              eq_refl eq_refl eq_refl eq_refl) as (w' & Heq & _).
  exists w'. exact Heq.
Defined.

(** X9: catching up is complete while the cap is not reached.  A session is
    created, its process emits the chunks [outs], no more than the cap, and
    then another open socket sends [start]: the output it is sent is the
    concatenation of all of [outs], in order. *)
Theorem late_joiner_gets_whole_output (ws1 ws2 : WebSocket) (d1 d2 : JsVal)
        (env1 env2 : Env) (w : World) (outs : list string) :
  EMPTY w ->
  message_tag d1 = Some "start"%string ->
  message_tag d2 = Some "start"%string ->
  spawnThrows env1 = false ->
  readyState w ws2 = OPEN ->
  List.length outs <= maxBufferLines (SHARED_SESSION w) ->
  let w1 := world_of (onMessage ws1 (Some d1) env1 w) in
  let w2 := world_of (run (map (EvPtyData (spawned w)) outs) w1) in
  let reply := effects_of (onMessage ws2 (Some d2) env2 w2) in
  outputBuffer (SHARED_SESSION w2) = outs /\
  output_text (sent_to ws2 reply) = join outs /\
  filter is_output (sent_to ws2 reply) =
    match outs with [] => [] | _ :: _ => [MsgOutput (join outs)] end.
Proof.
  intros Hempty Htag1 Htag2 Hspawn Hopen Hlen. cbv zeta.
  destruct (onMessage_create_world ws1 d1 env1 w Hempty Htag1 Hspawn)
    as (r & effs & -> & _).
  cbn [world_of fst snd].
  rewrite run_output_events by (cbn; apply in_or_app; right; now left).
  cbn [world_of fst snd].
  set (w2 := with_session (appends outs) (created env1 w)).
  assert (Hbuf : outputBuffer (SHARED_SESSION w2) = outs).
  { subst w2. cbn [with_session SHARED_SESSION].
    destruct outs as [| o outs']; [reflexivity |].
    rewrite appends_buffer.
    - cbn [created SHARED_SESSION outputBuffer maxBufferLines app].
      now apply most_recent_all.
    - cbn [created SHARED_SESSION maxBufferLines]. cbn in Hlen. lia.
    - cbn. lia. }
  split; [exact Hbuf |].
  assert (Hpty : pty (SHARED_SESSION w2) = Some (spawned w)).
  { subst w2. cbn [with_session SHARED_SESSION].
    destruct (appends_session_frame outs (SHARED_SESSION (created env1 w))) as (-> & _).
    reflexivity. }
  assert (Hopen2 : readyState w2 ws2 = OPEN) by exact Hopen.
  rewrite (onMessage_join ws2 d2 env2 w2 (spawned w) Hpty Htag2 Hopen2).
  cbn [effects_of snd]. rewrite sent_to_cons_console, sent_to_app.
  unfold snapshot. rewrite Hbuf.
  assert (Hself : (ws2 =? ws2) = true) by apply Nat.eqb_refl.
  destruct outs as [| o outs']; cbn [List.length Nat.ltb Nat.leb]; cbn;
    rewrite Hself; cbn; split; reflexivity.
Qed.

Lemma late_joiner_gets_whole_output_witness :
  let w1 := world_of (onMessage 1 msg_start (env_ok "1111111111111111") world_one_client) in
  let w2 := world_of (run (map (EvPtyData 0) ["$ "; "echo hi"; "hi"]%string) w1) in
  output_text (sent_to 2 (effects_of (onMessage 2 msg_start (env_ok "2222222222222222") w2)))
  = "$ echo hihi"%string.
Proof.
  apply (late_joiner_gets_whole_output 1 2 start_80x24 start_80x24
           (env_ok "1111111111111111") (env_ok "2222222222222222")
           world_one_client ["$ "; "echo hi"; "hi"]%string);
    try reflexivity.
  cbn. lia.
Defined.

(** ** The connection gateway *)

Lemma set_delete_snoc ws l : ~ In ws l -> set_delete ws (l ++ [ws]) = l.
Proof.
  intros Hn. unfold set_delete. rewrite filter_app. cbn.
  rewrite Nat.eqb_refl. cbn. rewrite app_nil_r.
  induction l as [| c l IH]; [reflexivity |].
  cbn. destruct (Nat.eqb_spec c ws) as [-> | Hne].
  - exfalso. apply Hn. now left.
  - cbn. f_equal. apply IH. intros H. apply Hn. now right.
Qed.

Lemma set_add_spec x l c : In c (set_add x l) <-> c = x \/ In c l.
Proof.
  unfold set_add. destruct (existsb (Nat.eqb x) l) eqn:E.
  - apply existsb_exists in E as (y & Hy & Heq). apply Nat.eqb_eq in Heq. subst y.
    split; [auto | intros [-> | H]; assumption].
  - rewrite in_app_iff. cbn. intuition.
Qed.

(** X10: an accepted connection is in the registry exactly once afterwards,
    also when the same socket was registered already, and the registry gains
    nothing else; when the socket was not registered before, its close
    handler puts the whole world back as it was, so a client that connects
    and leaves without a message leaves no trace in the server's state. *)
Theorem connect_registers_once_and_close_undoes (ws : WebSocket) (w : World) :
  registry_ok w ->
  let w1 := world_of (onConnection ws true w) in
  registry_ok w1 /\
  (forall c, In c (clients (SHARED_SESSION w1)) <->
             c = ws \/ In c (clients (SHARED_SESSION w))) /\
  (In ws (clients (SHARED_SESSION w)) -> w1 = w) /\
  (~ In ws (clients (SHARED_SESSION w)) -> world_of (onClose ws w1) = w).
Proof.
  intros Hok. cbv zeta.
  change (world_of (onConnection ws true w))
    with (with_session (fun s => set_clients (set_add ws (clients s)) s) w).
  split; [now apply set_add_NoDup |].
  split; [intros c; apply set_add_spec |].
  split; intros Hin.
  - assert (E : set_add ws (clients (SHARED_SESSION w)) = clients (SHARED_SESSION w)).
    { unfold set_add.
      assert (E : existsb (Nat.eqb ws) (clients (SHARED_SESSION w)) = true).
      { apply existsb_exists. exists ws. split; [assumption | apply Nat.eqb_refl]. }
      now rewrite E. }
    destruct w as [[p cl b m i] rs n r].
    unfold with_session, set_clients.
    cbn [SHARED_SESSION pty clients outputBuffer maxBufferLines sessionId
         readyState spawned running] in *.
    now rewrite E.
  - rewrite onClose_eq. cbn [world_of fst snd].
    assert (E : set_delete ws (set_add ws (clients (SHARED_SESSION w))) =
                clients (SHARED_SESSION w)).
    { unfold set_add.
      assert (E : existsb (Nat.eqb ws) (clients (SHARED_SESSION w)) = false).
      { apply not_true_is_false. intros H.
        apply existsb_exists in H as (y & Hy & Heq).
        apply Nat.eqb_eq in Heq. now subst y. }
      rewrite E. now apply set_delete_snoc. }
    destruct w as [[p cl b m i] rs n r].
    unfold with_session, set_clients.
    cbn [SHARED_SESSION pty clients outputBuffer maxBufferLines sessionId
         readyState spawned running] in *.
    now rewrite E.
Qed.

Lemma connect_registers_once_and_close_undoes_witness :
  world_of (onClose 7 (world_of (onConnection 7 true world_abc))) = world_abc.
Proof.
  apply (connect_registers_once_and_close_undoes 7 world_abc world_abc_registry_ok).
  cbn. intuition discriminate.
Defined.

Lemma step_registry_growth e w ws :
  In ws (clients (SHARED_SESSION (world_of (step e w)))) ->
  In ws (clients (SHARED_SESSION w)) \/ e = EvConnection ws true.
Proof.
  destruct e as [c a | c parsed env | c | c r | p o | p x]; cbn [step].
  - unfold onConnection. destruct a; cbn; [| auto].
    intros H. apply set_add_spec in H as [-> | H]; auto.
  - rewrite onMessage_clients. auto.
  - rewrite onClose_eq. cbn. intros H. apply set_delete_spec in H as [H _]. auto.
  - auto.
  - destruct (existsb (Nat.eqb p) (running w)); [| auto].
    rewrite onData_eq. cbn.
    rewrite (proj1 (proj2 (addToBuffer_session_frame o (SHARED_SESSION w)))). auto.
  - destruct (existsb (Nat.eqb p) (running w)); [| auto].
    unfold bind, process_gone. rewrite onExit_eq. auto.
Qed.

(** X11: a socket is in the registry only if a connection of that socket
    passed the credentials check: unauthorized sockets (closed with code
    4001) and sockets that merely send messages are never registered, so no
    broadcast ever includes them. *)
Theorem registered_only_if_authorized (id0 : string) (es : list Event)
        (ws : WebSocket) :
  In ws (clients (SHARED_SESSION (world_of (run es (world0 id0))))) ->
  In (EvConnection ws true) es.
Proof.
  assert (G : forall es w,
             In ws (clients (SHARED_SESSION (world_of (run es w)))) ->
             In ws (clients (SHARED_SESSION w)) \/ In (EvConnection ws true) es).
  { clear. induction es as [| e es IH]; intros w H; [now left |].
    rewrite run_cons in H. cbn [world_of fst snd] in H.
    apply IH in H as [H | H]; [| right; now right].
    apply step_registry_growth in H as [H | ->]; [now left | right; now left]. }
  intros H. apply G in H as [[] | H]. exact H.
Qed.

Lemma registered_only_if_authorized_witness :
  In (EvConnection 1 true) session_then_reset.
Proof.
  apply (registered_only_if_authorized "00000000000000aa" session_then_reset 1).
  cbn. auto.
Defined.

(** * Cookies, tokens and the HTTP routes *)

(** ** Facts about [split] and [trim] *)

Lemma chars_app (a b : string) : chars (a ++ b)%string = chars a ++ chars b.
Proof. induction a as [| c a IH]; cbn; [reflexivity | now rewrite IH]. Qed.

Lemma split_on_not_nil sep s : split_on sep s <> [].
Proof.
  destruct s as [| c s]; cbn; [discriminate |].
  destruct (Ascii.eqb c sep); [discriminate |].
  destruct (split_on sep s); discriminate.
Qed.

Lemma split_on_free sep s :
  forallb (fun c => negb (Ascii.eqb c sep)) (chars s) = true ->
  split_on sep s = [s].
Proof.
  induction s as [| c s IH]; cbn; [reflexivity |].
  intros H. apply andb_true_iff in H as [Hc Hs].
  apply negb_true_iff in Hc. rewrite Hc, (IH Hs). reflexivity.
Qed.

Lemma split_on_app sep (a b : string) :
  forallb (fun c => negb (Ascii.eqb c sep)) (chars a) = true ->
  split_on sep (a ++ String sep b) = a :: split_on sep b.
Proof.
  induction a as [| c a IH]; cbn.
  - intros _. now rewrite Ascii.eqb_refl.
  - intros H. apply andb_true_iff in H as [Hc Ha].
    apply negb_true_iff in Hc. rewrite Hc, (IH Ha). reflexivity.
Qed.





Lemma trim_end_keeps c s :
  is_js_space c = false -> trim_end (String c s) = String c (trim_end s).
Proof. intros H. cbn. rewrite H. destruct (trim_end s); reflexivity. Qed.

Lemma trim_end_app_keeps (a : string) c s :
  is_js_space c = false ->
  trim_end (a ++ String c s) = (a ++ String c (trim_end s))%string.
Proof.
  intros H. induction a as [| x a IH].
  - now apply trim_end_keeps.
  - cbn [String.append]. cbn [trim_end]. rewrite IH.
    destruct a; reflexivity.
Qed.

Lemma trim_end_no_space s :
  forallb (fun c => negb (is_js_space c)) (chars s) = true -> trim_end s = s.
Proof.
  induction s as [| c s IH]; cbn; [reflexivity |].
  intros H. apply andb_true_iff in H as [Hc Hs]. apply negb_true_iff in Hc.
  rewrite (IH Hs), Hc. destruct s; reflexivity.
Qed.

Lemma token_char_spec c :
  token_char c = true ->
  Ascii.eqb c ";" = false /\ Ascii.eqb c "=" = false /\ is_js_space c = false.
Proof.
  unfold token_char. intros H.
  apply andb_true_iff in H as [H H3]. apply andb_true_iff in H as [H1 H2].
  now rewrite negb_true_iff in H1, H2, H3.
Qed.

Lemma token_free (P : ascii -> bool) s :
  (forall c, token_char c = true -> P c = true) ->
  forallb token_char (chars s) = true -> forallb P (chars s) = true.
Proof.
  intros HP H. rewrite forallb_forall in *. intros c Hc. apply HP. now apply H.
Qed.

Lemma token_no_semicolon s :
  forallb token_char (chars s) = true ->
  forallb (fun c => negb (Ascii.eqb c ";")) (chars s) = true.
Proof.
  apply token_free. intros c H. apply token_char_spec in H as (-> & _). reflexivity.
Qed.

Lemma token_no_equals s :
  forallb token_char (chars s) = true ->
  forallb (fun c => negb (Ascii.eqb c "=")) (chars s) = true.
Proof.
  apply token_free. intros c H. apply token_char_spec in H as (_ & -> & _). reflexivity.
Qed.

Lemma token_no_space s :
  forallb token_char (chars s) = true ->
  forallb (fun c => negb (is_js_space c)) (chars s) = true.
Proof.
  apply token_free. intros c H. apply token_char_spec in H as (_ & _ & ->). reflexivity.
Qed.

Lemma trim_start_token (n rest : string) :
  cookie_token n -> trim_start (n ++ rest) = (n ++ rest)%string.
Proof.
  intros [Hne Htok]. destruct n as [| c n]; [congruence |].
  cbn in *. apply andb_true_iff in Htok as [Hc _].
  apply token_char_spec in Hc as (_ & _ & ->). reflexivity.
Qed.

(** ** Facts about the record *)

Lemma record_get_put_same k v o : record_get k (record_put k v o) = Some v.
Proof.
  induction o as [| [k' v'] o IH]; cbn.
  - now rewrite String.eqb_refl.
  - destruct (String.eqb_spec k' k); cbn.
    + now rewrite String.eqb_refl.
    + destruct (String.eqb_spec k' k); [congruence | exact IH].
Qed.

Lemma record_get_put_other k k' v o :
  k <> k' -> record_get k (record_put k' v o) = record_get k o.
Proof.
  intros Hne. induction o as [| [k2 v2] o IH]; cbn.
  - destruct (String.eqb_spec k' k); [congruence | reflexivity].
  - destruct (String.eqb_spec k2 k'); cbn.
    + subst k2. destruct (String.eqb_spec k' k); [congruence | reflexivity].
    + destruct (String.eqb_spec k2 k); [reflexivity | exact IH].
Qed.


(** ** What one cookie contributes *)

Lemma parseCookie_pair (pre n v : string) cookies :
  forallb is_js_space (chars pre) = true ->
  cookie_token n -> cookie_token v ->
  parseCookie cookies (pre ++ n ++ "=" ++ v) = record_set n v cookies.
Proof.
  intros Hpre Hn Hv. unfold parseCookie.
  assert (Etrim : trim (pre ++ n ++ "=" ++ v) = (n ++ "=" ++ v)%string).
  { unfold trim.
    assert (Es : trim_start (pre ++ n ++ "=" ++ v) = (n ++ "=" ++ v)%string).
    { induction pre as [| c pre IH]; cbn [String.append].
      - now apply trim_start_token.
      - cbn in Hpre. apply andb_true_iff in Hpre as [Hc Hp].
        cbn [trim_start]. rewrite Hc. now apply IH. }
    rewrite Es. apply trim_end_no_space.
    rewrite !chars_app, !forallb_app. cbn.
    now rewrite (token_no_space n (proj2 Hn)), (token_no_space v (proj2 Hv)). }
  rewrite Etrim.
  change (n ++ "=" ++ v)%string with (n ++ String "=" v)%string.
  rewrite split_on_app by (apply token_no_equals, Hn).
  rewrite split_on_free by (apply token_no_equals, Hv).
  cbn [nth_error].
  destruct Hn as [Hn _], Hv as [Hv _].
  apply String.eqb_neq in Hn, Hv. now rewrite Hn, Hv.
Qed.

(** ** Reading a cookie header back *)

Lemma string_app_assoc (a b c : string) :
  (a ++ b ++ c)%string = ((a ++ b) ++ c)%string.
Proof. induction a as [| x a IH]; cbn; [reflexivity | now rewrite IH]. Qed.

Lemma cookie_pair_no_semicolon nv :
  well_formed_pair nv ->
  forallb (fun c => negb (Ascii.eqb c ";")) (chars (cookie_pair nv)) = true.
Proof.
  intros ([_ Hn] & [_ Hv] & _). unfold cookie_pair.
  rewrite !chars_app, !forallb_app. cbn.
  now rewrite (token_no_semicolon _ Hn), (token_no_semicolon _ Hv).
Qed.

Lemma split_cookie_header (pairs : list (string * string)) :
  forall (pre : string) (p : string * string),
  forallb (fun c => negb (Ascii.eqb c ";")) (chars pre) = true ->
  Forall well_formed_pair (p :: pairs) ->
  split_on ";" (pre ++ String.concat "; " (map cookie_pair (p :: pairs))) =
  (pre ++ cookie_pair p)%string :: map (fun q => (" " ++ cookie_pair q)%string) pairs.
Proof.
  induction pairs as [| q pairs IH]; intros pre p Hpre Hwf.
  - cbn [map String.concat]. apply split_on_free.
    rewrite chars_app, forallb_app, Hpre.
    apply cookie_pair_no_semicolon. now inversion Hwf.
  - change (String.concat "; " (map cookie_pair (p :: q :: pairs)))
      with (cookie_pair p ++ String ";" (" " ++ String.concat "; " (map cookie_pair (q :: pairs))))%string.
    rewrite string_app_assoc, split_on_app.
    + cbn [map]. f_equal. apply (IH " "%string q); [reflexivity |].
      now inversion Hwf.
    + rewrite chars_app, forallb_app, Hpre.
      apply cookie_pair_no_semicolon. now inversion Hwf.
Qed.

Lemma fold_parseCookie_pairs (pairs : list (string * string)) : forall cookies,
  Forall well_formed_pair pairs ->
  fold_left parseCookie (map (fun q => (" " ++ cookie_pair q)%string) pairs) cookies =
  fold_left (fun o nv => record_set (fst nv) (snd nv) o) pairs cookies.
Proof.
  induction pairs as [| [n v] pairs IH]; intros cookies Hwf; [reflexivity |].
  inversion Hwf as [| ? ? (Hn & Hv & _) Hrest]; subst.
  cbn [map fold_left].
  change (" " ++ cookie_pair (n, v))%string with (" " ++ n ++ "=" ++ v)%string.
  cbn [fst snd] in Hn, Hv.
  rewrite (parseCookie_pair " " n v cookies eq_refl Hn Hv).
  now apply IH.
Qed.

Lemma record_get_fold_set k (pairs : list (string * string)) : forall o,
  Forall well_formed_pair pairs ->
  record_get k (fold_left (fun o nv => record_set (fst nv) (snd nv) o) pairs o) =
  match last_value k pairs with
  | Some v => Some v
  | None => record_get k o
  end.
Proof.
  induction pairs as [| [n v] pairs IH]; intros o Hwf; [reflexivity |].
  inversion Hwf as [| ? ? (_ & _ & Hproto) Hrest]; subst.
  cbn [fold_left last_value fst snd]. rewrite (IH _ Hrest).
  destruct (last_value k pairs); [reflexivity |].
  unfold record_set. cbn [fst] in Hproto.
  apply String.eqb_neq in Hproto. rewrite Hproto.
  destruct (String.eqb_spec n k) as [-> | Hne].
  - apply record_get_put_same.
  - apply record_get_put_other. congruence.
Qed.

Lemma cookie_header_not_empty p pairs :
  well_formed_pair p -> (cookie_header (p :: pairs) =? "")%string = false.
Proof.
  intros ([Hn _] & _). apply String.eqb_neq.
  unfold cookie_header. destruct p as [n v]. cbn [map fst snd] in *.
  destruct n as [| c n]; [congruence |].
  destruct pairs; cbn; discriminate.
Qed.

(** A well-formed header is parsed into the assignments of its pairs, in
    order. *)
Lemma parseCookies_cookie_header (pairs : list (string * string)) :
  Forall well_formed_pair pairs ->
  parseCookies (Some (cookie_header pairs)) =
  fold_left (fun o nv => record_set (fst nv) (snd nv) o) pairs [].
Proof.
  intros Hwf. destruct pairs as [| p pairs]; [reflexivity |].
  unfold parseCookies. rewrite (cookie_header_not_empty p pairs) by now inversion Hwf.
  unfold cookie_header.
  change (map (fun nv => (fst nv ++ "=" ++ snd nv)%string) (p :: pairs))
    with (map cookie_pair (p :: pairs)).
  pose proof (split_cookie_header pairs ""%string p eq_refl Hwf) as Hs.
  cbn [String.append] in Hs. rewrite Hs. cbn [fold_left].
  inversion Hwf as [| ? ? Hp Hrest]; subst.
  destruct p as [n v]. destruct Hp as (Hn & Hv & Hproto).
  cbn [fst snd] in *.
  change (parseCookie [] (cookie_pair (n, v)))
    with (parseCookie [] ("" ++ n ++ "=" ++ v)%string).
  rewrite (parseCookie_pair "" n v [] eq_refl Hn Hv).
  now rewrite (fold_parseCookie_pairs pairs _ Hrest).
Qed.

(** X12: [parseCookies] reads back every cookie header a browser builds:
    for name/value pairs free of [;], [=] and white space, joined with
    ["; "], the value found under a name is the value of the last pair with
    that name, and a name that does not occur is absent. *)
Theorem parseCookies_reads_back (pairs : list (string * string)) (k : string) :
  Forall well_formed_pair pairs ->
  record_get k (parseCookies (Some (cookie_header pairs))) = last_value k pairs.
Proof.
  intros Hwf.
  rewrite (parseCookies_cookie_header pairs Hwf).
  rewrite (record_get_fold_set k pairs [] Hwf).
  destruct (last_value k pairs); reflexivity.
Qed.

Lemma parseCookies_reads_back_witness :
  record_get "emergent_session"
    (parseCookies (Some "theme=dark; emergent_session=0a1b; emergent_session=9f9f"%string))
  = Some "9f9f"%string.
Proof.
  apply (parseCookies_reads_back
           [("theme", "dark"); ("emergent_session", "0a1b");
            ("emergent_session", "9f9f")]%string "emergent_session").
  repeat constructor; cbn; discriminate.
Defined.

(** X13: only the text between the first and the second [=] of a cookie is
    its value: whatever follows a second [=] (base64 padding, a nested
    [k=v]) is dropped without notice. *)
Theorem cookie_value_cut_at_second_equals (n v rest : string) :
  cookie_token n -> cookie_token v -> n <> "__proto__"%string ->
  forallb (fun c => negb (Ascii.eqb c ";")) (chars rest) = true ->
  parseCookies (Some (n ++ "=" ++ v ++ "=" ++ rest)%string) = [(n, v)].
Proof.
  intros Hn Hv Hproto Hrest.
  set (h := (n ++ "=" ++ v ++ "=" ++ rest)%string).
  assert (Hne : (h =? "")%string = false).
  { apply String.eqb_neq. subst h. destruct Hn as [Hn _].
    destruct n; [congruence | discriminate]. }
  unfold parseCookies. rewrite Hne.
  assert (Hsplit : split_on ";" h = [h]).
  { apply split_on_free. subst h.
    rewrite !chars_app, !forallb_app. cbn.
    now rewrite (token_no_semicolon n (proj2 Hn)), (token_no_semicolon v (proj2 Hv)), Hrest. }
  rewrite Hsplit. cbn [fold_left]. unfold parseCookie.
  assert (Etrim : trim h = (n ++ String "=" (v ++ String "=" (trim_end rest)))%string).
  { unfold trim. subst h. rewrite (trim_start_token n _ Hn).
    change (n ++ "=" ++ v ++ "=" ++ rest)%string
      with (n ++ String "=" (v ++ String "=" rest))%string.
    rewrite (trim_end_app_keeps n "=" _ eq_refl).
    now rewrite (trim_end_app_keeps v "=" rest eq_refl). }
  rewrite Etrim.
  rewrite split_on_app by (apply token_no_equals, Hn).
  rewrite split_on_app by (apply token_no_equals, Hv).
  cbn [nth_error].
  destruct Hn as [Hn _], Hv as [Hv _].
  apply String.eqb_neq in Hn, Hv, Hproto. rewrite Hn, Hv. cbn [negb andb].
  unfold record_set. now rewrite Hproto.
Qed.

Lemma cookie_value_cut_at_second_equals_witness :
  parseCookies (Some "csrf=YWJjZA=="%string) = [("csrf", "YWJjZA")]%string.
Proof.
  apply (cookie_value_cut_at_second_equals "csrf" "YWJjZA" "=").
  - split; [discriminate | reflexivity].
  - split; [discriminate | reflexivity].
  - discriminate.
  - reflexivity.
Defined.




(** ** Hex tokens *)

Lemma hex_digit_lower n : n < 16 -> is_lower_hex (hex_digit n) = true.
Proof.
  intros H. do 16 (destruct n as [| n]; [reflexivity |]). lia.
Qed.

Lemma hex_value_digit n : n < 16 -> hex_value (hex_digit n) = n.
Proof.
  intros H. do 16 (destruct n as [| n]; [reflexivity |]). lia.
Qed.

Lemma byte_hi_lt b : Byte.to_nat b / 16 < 16.
Proof.
  pose proof (Byte.to_nat_bounded b).
  apply Nat.Div0.div_lt_upper_bound. lia.
Qed.

Lemma byte_lo_lt b : Byte.to_nat b mod 16 < 16.
Proof. apply Nat.mod_upper_bound. discriminate. Qed.

Lemma toHex_length bytes : String.length (toHex bytes) = 2 * List.length bytes.
Proof. induction bytes as [| b bytes IH]; cbn; [reflexivity | rewrite IH; lia]. Qed.

Lemma toHex_lower bytes : forallb is_lower_hex (chars (toHex bytes)) = true.
Proof.
  induction bytes as [| b bytes IH]; [reflexivity |].
  cbn [toHex chars forallb].
  now rewrite (hex_digit_lower _ (byte_hi_lt b)), (hex_digit_lower _ (byte_lo_lt b)), IH.
Qed.

Lemma toHex_injective b1 : forall b2, toHex b1 = toHex b2 -> b1 = b2.
Proof.
  induction b1 as [| x b1 IH]; intros [| y b2]; cbn [toHex]; try discriminate;
    [reflexivity |].
  pose proof (byte_hi_lt x) as Hxh. pose proof (byte_lo_lt x) as Hxl.
  pose proof (byte_hi_lt y) as Hyh. pose proof (byte_lo_lt y) as Hyl.
  pose proof (Nat.div_mod_eq (Byte.to_nat x) 16) as Ex.
  pose proof (Nat.div_mod_eq (Byte.to_nat y) 16) as Ey.
  remember (Byte.to_nat x / 16) as xh. remember (Byte.to_nat x mod 16) as xl.
  remember (Byte.to_nat y / 16) as yh. remember (Byte.to_nat y mod 16) as yl.
  intros H. injection H as Hhi Hlo Hrest.
  f_equal; [| now apply IH].
  apply (f_equal hex_value) in Hhi, Hlo.
  rewrite !hex_value_digit in Hhi, Hlo by assumption.
  assert (E : Byte.to_nat x = Byte.to_nat y) by lia.
  apply (f_equal Byte.of_nat) in E. rewrite !Byte.of_to_nat in E. now injection E.
Qed.

Lemma randomBytes_length entropy n : List.length (randomBytes entropy n) = n.
Proof. unfold randomBytes. now rewrite length_map, length_seq. Qed.

(** X15: whatever bytes the random source delivers, [generateToken]
    returns a string that matches [/^[a-f0-9]{64}$/], and two tokens are
    equal only when the 32 random bytes behind them are: the encoding loses
    nothing of the randomness. *)
Theorem generateToken_is_64_hex_digits (entropy : nat -> Byte.byte) :
  String.length (generateToken entropy) = 64 /\
  forallb is_lower_hex (chars (generateToken entropy)) = true /\
  forall entropy', generateToken entropy = generateToken entropy' ->
                   randomBytes entropy 32 = randomBytes entropy' 32.
Proof.
  unfold generateToken. split; [| split].
  - now rewrite toHex_length, randomBytes_length.
  - apply toHex_lower.
  - intros e' H. now apply toHex_injective.
Qed.

Lemma lower_hex_is_token_char c : is_lower_hex c = true -> token_char c = true.
Proof.
  destruct c as [[] [] [] [] [] [] [] []]; intros H;
    try discriminate H; reflexivity.
Qed.

Lemma generateSessionId_token entropy : cookie_token (generateSessionId entropy).
Proof.
  unfold generateSessionId. split.
  - intros H. apply (f_equal String.length) in H.
    rewrite toHex_length, randomBytes_length in H. discriminate.
  - pose proof (toHex_lower (randomBytes entropy 16)) as H.
    rewrite forallb_forall in *. intros c Hc. apply lower_hex_is_token_char. now apply H.
Qed.

(** ** Sessions of the HTTP side *)

Lemma sessions_has_In sid l : sessions_has sid l = true <-> In sid l.
Proof.
  unfold sessions_has. rewrite existsb_exists. split.
  - intros (x & Hx & E). apply String.eqb_eq in E. now subst.
  - intros H. exists sid. split; [assumption | apply String.eqb_refl].
Qed.

Lemma sessions_has_add sid l : sessions_has sid (sessions_add sid l) = true.
Proof.
  unfold sessions_add. destruct (sessions_has sid l) eqn:E; [exact E |].
  apply sessions_has_In, in_or_app. right. now left.
Qed.

Lemma sessions_has_delete sid l : sessions_has sid (sessions_delete sid l) = false.
Proof.
  apply not_true_is_false. rewrite sessions_has_In. unfold sessions_delete.
  rewrite filter_In. intros [_ H]. now rewrite String.eqb_refl in H.
Qed.

Lemma last_value_app_here k v before after :
  last_value k after = None ->
  last_value k (before ++ (k, v) :: after) = Some v.
Proof.
  intros Hafter. induction before as [| [n x] before IH]; cbn.
  - now rewrite Hafter, String.eqb_refl.
  - now rewrite IH.
Qed.

(** X16: a login that presents the access token stores a fresh 32-digit
    session identifier and sets it as the [emergent_session] cookie; from
    then on a request whose [Cookie] header carries that cookie among other
    well-formed cookies passes [isAuthenticated] and [requireAuth], is sent
    from the login page on to the terminal, and a WebSocket upgrade with
    that header is accepted, with no token in either. *)
Theorem login_then_cookie_authenticates (a : Auth) (token : JsVal)
        (entropy : nat -> Byte.byte) (before after : list (string * string))
        (req : Request) (tokenParam : option string) :
  strict_eq_str token (ACCESS_TOKEN a) = true ->
  Forall well_formed_pair before -> Forall well_formed_pair after ->
  last_value "emergent_session" after = None ->
  req_cookie req =
    Some (cookie_header (before ++ ("emergent_session"%string, generateSessionId entropy) :: after)) ->
  let a' := fst (postLogin a token entropy) in
  snd (postLogin a token entropy) =
    Redirect "/" (SetCookie "emergent_session" (generateSessionId entropy)) /\
  String.length (generateSessionId entropy) = 32 /\
  isAuthenticated a' req = true /\
  requireAuth a' req = None /\
  getLogin a' req = Redirect "/" KeepCookies /\
  wsAuthorized a' (req_cookie req) tokenParam = true.
Proof.
  intros Htok Hb Ha Hlast Hcookie. cbv zeta.
  unfold postLogin. rewrite Htok. cbn [fst snd].
  set (sid := generateSessionId entropy) in *.
  pose proof (generateSessionId_token entropy) as Hsid. fold sid in Hsid.
  assert (Hget : record_get "emergent_session" (parseCookies (req_cookie req)) = Some sid).
  { assert (Hwf : Forall well_formed_pair
                            (before ++ ("emergent_session"%string, sid) :: after)).
    { apply Forall_app. split; [assumption |].
      constructor; [| assumption].
      repeat split; try apply Hsid; cbn; discriminate. }
    rewrite Hcookie, (parseCookies_cookie_header _ Hwf), (record_get_fold_set _ _ [] Hwf).
    now rewrite (last_value_app_here "emergent_session" sid before after Hlast). }
  assert (Hne : (sid =? "")%string = false) by (apply String.eqb_neq, Hsid).
  assert (Hauth : isAuthenticated
                    (mkAuth (ACCESS_TOKEN a) (sessions_add sid (authenticatedSessions a)))
                    req = true).
  { unfold isAuthenticated. rewrite Hget, Hne. cbn [authenticatedSessions negb andb].
    now rewrite sessions_has_add. }
  split; [reflexivity |].
  split; [unfold sid, generateSessionId; now rewrite toHex_length, randomBytes_length |].
  split; [exact Hauth |].
  split; [unfold requireAuth; now rewrite Hauth |].
  split; [unfold getLogin; now rewrite Hauth |].
  unfold wsAuthorized. rewrite Hget, Hne. cbn [authenticatedSessions].
  now rewrite sessions_has_add.
Qed.

Lemma login_then_cookie_authenticates_witness :
  isAuthenticated (fst (postLogin auth0 (JStr (string_repeat "a" 64)) zero_entropy))
    (request_with_cookie
       (Some "theme=dark; emergent_session=00000000000000000000000000000000"%string))
  = true.
Proof.
  apply (login_then_cookie_authenticates auth0 (JStr (string_repeat "a" 64))
           zero_entropy [("theme", "dark")]%string []
           (request_with_cookie
              (Some "theme=dark; emergent_session=00000000000000000000000000000000"%string))
           None).
  - reflexivity.
  - repeat constructor; cbn; discriminate.
  - constructor.
  - reflexivity.
  - reflexivity.
Defined.

(** X17: a logout deletes the session its [emergent_session] cookie names
    and clears the cookie; afterwards the same [Cookie] header opens
    nothing: without the access token in header or query [isAuthenticated]
    rejects it, the protected page redirects to the login page, the login
    page is shown, and the WebSocket check rejects it too. *)
Theorem logout_revokes_the_cookie (a : Auth) (req req' : Request)
        (tokenParam : option string) :
  req_cookie req' = req_cookie req ->
  strict_eq_str (req_token_header req') (ACCESS_TOKEN a) = false ->
  strict_eq_str (req_query_token req') (ACCESS_TOKEN a) = false ->
  tokenParam <> Some (ACCESS_TOKEN a) ->
  ~ In EmptyString (authenticatedSessions a) ->
  let a' := fst (getLogout a req) in
  snd (getLogout a req) = Redirect "/login" (ClearCookie "emergent_session") /\
  ACCESS_TOKEN a' = ACCESS_TOKEN a /\
  isAuthenticated a' req' = false /\
  requireAuth a' req' = Some (Redirect "/login" KeepCookies) /\
  getLogin a' req' = LoginPage (truthy (req_query_error req')) /\
  wsAuthorized a' (req_cookie req') tokenParam = false.
Proof.
  intros Hcookie Hhdr Hqry Htp Hnoempty. cbv zeta.
  assert (Hdiff : match tokenParam with
                  | Some t => negb (t =? ACCESS_TOKEN a)%string
                  | None => true
                  end = true).
  { destruct tokenParam as [t |]; [| reflexivity].
    apply negb_true_iff, String.eqb_neq. congruence. }
  assert (Hempty : sessions_has "" (authenticatedSessions a) = false).
  { apply not_true_is_false. now rewrite sessions_has_In. }
  split; [reflexivity |].
  unfold getLogout, getLogin, requireAuth, isAuthenticated, wsAuthorized.
  rewrite Hcookie.
  destruct (record_get "emergent_session" (parseCookies (req_cookie req))) as [sid |].
  - destruct (String.eqb_spec sid "") as [-> | Hne]; cbn [negb andb fst ACCESS_TOKEN authenticatedSessions].
    + now rewrite Hhdr, Hqry, Hempty, Hdiff.
    + now rewrite sessions_has_delete, Hhdr, Hqry, Hdiff.
  - cbn [fst]. now rewrite Hhdr, Hqry, Hempty, Hdiff.
Qed.

Lemma logout_revokes_the_cookie_witness :
  let a := fst (postLogin auth0 (JStr (string_repeat "a" 64)) zero_entropy) in
  let req := request_with_cookie
               (Some "emergent_session=00000000000000000000000000000000"%string) in
  isAuthenticated a req = true /\
  isAuthenticated (fst (getLogout a req)) req = false.
Proof.
  cbv zeta. split; [reflexivity |].
  apply (logout_revokes_the_cookie
           (fst (postLogin auth0 (JStr (string_repeat "a" 64)) zero_entropy))
           (request_with_cookie
              (Some "emergent_session=00000000000000000000000000000000"%string))
           (request_with_cookie
              (Some "emergent_session=00000000000000000000000000000000"%string))
           None); try reflexivity; try discriminate.
  cbn. intros [H | []]. discriminate.
Defined.

(** ** What a sequence of logins and logouts can reach *)

Lemma auth_step_token a e : ACCESS_TOKEN (auth_step a e) = ACCESS_TOKEN a.
Proof.
  destruct e as [token entropy | req]; cbn.
  - unfold postLogin. destruct (strict_eq_str token (ACCESS_TOKEN a)); reflexivity.
  - unfold getLogout.
    destruct (record_get "emergent_session" (parseCookies (req_cookie req))) as [sid |];
      [destruct (negb (sid =? "")%string) |]; reflexivity.
Qed.

Lemma auth_run_token es : forall a, ACCESS_TOKEN (auth_run es a) = ACCESS_TOKEN a.
Proof.
  induction es as [| e es IH]; intros a; [reflexivity |].
  cbn. unfold auth_run in IH. now rewrite IH, auth_step_token.
Qed.

Lemma sessions_add_In sid l s : In s (sessions_add sid l) -> s = sid \/ In s l.
Proof.
  unfold sessions_add. destruct (sessions_has sid l); [auto |].
  rewrite in_app_iff. cbn. intuition.
Qed.

Lemma auth_step_sessions a e sid :
  In sid (authenticatedSessions (auth_step a e)) ->
  In sid (authenticatedSessions a) \/ issued_by a [e] sid.
Proof.
  destruct e as [token entropy | req]; cbn.
  - unfold postLogin. destruct (strict_eq_str token (ACCESS_TOKEN a)) eqn:E; cbn; [| auto].
    intros H. apply sessions_add_In in H as [-> | H]; [| auto].
    right. exists token, entropy. repeat split; [now left | exact E].
  - unfold getLogout.
    destruct (record_get "emergent_session" (parseCookies (req_cookie req))) as [s |];
      [destruct (negb (s =? "")%string) |]; cbn; auto.
    unfold sessions_delete. rewrite filter_In. intros [H _]. auto.
Qed.

Lemma auth_run_sessions es : forall a sid,
  In sid (authenticatedSessions (auth_run es a)) ->
  In sid (authenticatedSessions a) \/ issued_by a es sid.
Proof.
  induction es as [| e es IH]; intros a sid H; [now left |].
  cbn in H. apply IH in H as [H | (token & entropy & Hin & Htok & ->)].
  - apply auth_step_sessions in H as [H | (token & entropy & Hin & Htok & ->)];
      [now left | right].
    exists token, entropy. repeat split; [| exact Htok].
    destruct Hin as [<- | []]. now left.
  - right. exists token, entropy. rewrite auth_step_token in Htok.
    repeat split; [now right | exact Htok].
Qed.

(** X18: [authenticatedSessions] is fed by nothing but a login that
    presents the access token.  Starting with no session, after any
    sequence of logins with other tokens and of logouts the set is still
    empty, so no [Cookie] header authenticates a request or a WebSocket
    upgrade that does not carry the token itself. *)
Theorem no_session_without_the_token (a : Auth) (es : list AuthEvent)
        (req : Request) (tokenParam : option string) :
  authenticatedSessions a = [] ->
  (forall e, In e es -> presents_token a e = false) ->
  strict_eq_str (req_token_header req) (ACCESS_TOKEN a) = false ->
  strict_eq_str (req_query_token req) (ACCESS_TOKEN a) = false ->
  tokenParam <> Some (ACCESS_TOKEN a) ->
  let a' := auth_run es a in
  authenticatedSessions a' = [] /\
  isAuthenticated a' req = false /\
  wsAuthorized a' (req_cookie req) tokenParam = false.
Proof.
  intros Hnil Hno Hhdr Hqry Htp. cbv zeta.
  assert (Hs : authenticatedSessions (auth_run es a) = []).
  { destruct (authenticatedSessions (auth_run es a)) as [| sid l] eqn:E; [reflexivity |].
    exfalso.
    assert (Hin : In sid (authenticatedSessions (auth_run es a))) by (rewrite E; now left).
    apply auth_run_sessions in Hin as [Hin | (token & entropy & Hin & Htok & _)].
    - now rewrite Hnil in Hin.
    - apply Hno in Hin. cbn in Hin. congruence. }
  split; [exact Hs |].
  unfold isAuthenticated, wsAuthorized. rewrite Hs, auth_run_token, Hhdr, Hqry.
  assert (Hdiff : match tokenParam with
                  | Some t => negb (t =? ACCESS_TOKEN a)%string
                  | None => true
                  end = true).
  { destruct tokenParam as [t |]; [| reflexivity].
    apply negb_true_iff, String.eqb_neq. congruence. }
  rewrite Hdiff. cbn.
  destruct (record_get "emergent_session" (parseCookies (req_cookie req))) as [sid |];
    [destruct (negb (sid =? "")%string) |]; split; reflexivity.
Qed.

Lemma no_session_without_the_token_witness :
  isAuthenticated
    (auth_run [PostLogin (JStr "letmein") zero_entropy;
               GetLogout (request_with_cookie (Some "emergent_session=1"%string));
               PostLogin JUndefined zero_entropy] auth0)
    (request_with_cookie
       (Some "emergent_session=00000000000000000000000000000000"%string))
  = false.
Proof.
  apply (no_session_without_the_token auth0
           [PostLogin (JStr "letmein") zero_entropy;
            GetLogout (request_with_cookie (Some "emergent_session=1"%string));
            PostLogin JUndefined zero_entropy]
           (request_with_cookie
              (Some "emergent_session=00000000000000000000000000000000"%string))
           None); try reflexivity; try discriminate.
  intros e [<- | [<- | [<- | []]]]; reflexivity.
Defined.

(** X19: the page and the socket accept the same cookies.  In every state
    that logins and logouts can reach from an empty set, a request and a
    WebSocket upgrade that carry the same [Cookie] header and no token get
    the same verdict from [isAuthenticated] and from the gateway's check;
    the set never holds the empty string the gateway falls back to. *)
Theorem page_and_socket_agree_on_cookies (a : Auth) (es : list AuthEvent)
        (req : Request) :
  authenticatedSessions a = [] ->
  strict_eq_str (req_token_header req) (ACCESS_TOKEN a) = false ->
  strict_eq_str (req_query_token req) (ACCESS_TOKEN a) = false ->
  let a' := auth_run es a in
  ~ In EmptyString (authenticatedSessions a') /\
  wsAuthorized a' (req_cookie req) None = isAuthenticated a' req.
Proof.
  intros Hnil Hhdr Hqry. cbv zeta.
  assert (Hne : ~ In EmptyString (authenticatedSessions (auth_run es a))).
  { intros Hin. apply auth_run_sessions in Hin as [Hin | (token & entropy & _ & _ & E)].
    - now rewrite Hnil in Hin.
    - pose proof (generateSessionId_token entropy) as [H _]. congruence. }
  split; [exact Hne |].
  assert (Hempty : sessions_has "" (authenticatedSessions (auth_run es a)) = false).
  { apply not_true_is_false. now rewrite sessions_has_In. }
  unfold isAuthenticated, wsAuthorized. rewrite auth_run_token, Hhdr, Hqry.
  destruct (record_get "emergent_session" (parseCookies (req_cookie req))) as [sid |].
  - destruct (String.eqb_spec sid "") as [-> | Hsid]; cbn [negb andb].
    + now rewrite Hempty.
    + destruct (sessions_has sid _); reflexivity.
  - now rewrite Hempty.
Qed.

Lemma page_and_socket_agree_on_cookies_witness :
  let a := auth_run [PostLogin (JStr (string_repeat "a" 64)) zero_entropy] auth0 in
  let req := request_with_cookie
               (Some "emergent_session=00000000000000000000000000000000"%string) in
  wsAuthorized a (req_cookie req) None = isAuthenticated a req.
Proof.
  apply (page_and_socket_agree_on_cookies auth0
           [PostLogin (JStr (string_repeat "a" 64)) zero_entropy]
           (request_with_cookie
              (Some "emergent_session=00000000000000000000000000000000"%string)));
    reflexivity.
Defined.

(** ** Host and origin checks *)

Lemma prefix_spec (needle s : string) :
  String.prefix needle s = true <-> exists post, s = (needle ++ post)%string.
Proof.
  revert s. induction needle as [| c needle IH]; intros s.
  - split; [intros _; now exists s | intros _; destruct s; reflexivity].
  - destruct s as [| d s]; simpl.
    + split; [discriminate | intros (post & H); discriminate].
    + destruct (Ascii.ascii_dec c d) as [E | Hne]; [subst d |].
      * rewrite IH. split; intros (post & H); exists post;
          [now subst | now injection H].
      * split; [discriminate | intros (post & H); injection H; congruence].
Qed.

Lemma includes_spec (s needle : string) :
  includes s needle = true <->
  exists pre post, s = (pre ++ needle ++ post)%string.
Proof.
  induction s as [| c s IH]; cbn [includes].
  - rewrite orb_false_r, prefix_spec. split.
    + intros (post & H). now exists EmptyString, post.
    + intros (pre & post & H). destruct pre as [| x pre]; [| discriminate].
      now exists post.
  - rewrite orb_true_iff, prefix_spec, IH. split.
    + intros [(post & H) | (pre & post & H)].
      * now exists EmptyString, post.
      * exists (String c pre), post. cbn. now rewrite H.
    + intros (pre & post & H). destruct pre as [| x pre].
      * left. now exists post.
      * right. injection H as _ H. now exists pre, post.
Qed.

(** X20: [/api/token] is outside [requireAuth]: it answers with the access
    token exactly when the [Host] header contains ["localhost"] or
    ["127.0.0.1"] somewhere, whatever cookies or tokens the request has,
    and with 403 otherwise, a missing [Host] header included. *)
Theorem api_token_is_guarded_by_host_substring (a : Auth) (req : Request) :
  let host := match req_host req with Some h => h | None => EmptyString end in
  ((exists pre post, host = (pre ++ "localhost" ++ post)%string) \/
   (exists pre post, host = (pre ++ "127.0.0.1" ++ post)%string) ->
   getApiToken a req = TokenJson (ACCESS_TOKEN a)) /\
  (~ (exists pre post, host = (pre ++ "localhost" ++ post)%string) ->
   ~ (exists pre post, host = (pre ++ "127.0.0.1" ++ post)%string) ->
   getApiToken a req = Forbidden403).
Proof.
  cbv zeta. unfold getApiToken.
  set (host := match req_host req with Some h => h | None => EmptyString end).
  assert (E : match req_host req with
              | Some h => if (h =? "")%string then ""%string else h
              | None => ""%string
              end = host).
  { subst host. destruct (req_host req) as [h |]; [| reflexivity].
    destruct (String.eqb_spec h ""); congruence. }
  rewrite E. split.
  - intros [H | H]; apply includes_spec in H; rewrite H; cbn;
      [reflexivity | now rewrite andb_false_r].
  - intros H1 H2.
    destruct (includes host "localhost") eqn:E1;
      [exfalso; apply H1; now apply includes_spec |].
    destruct (includes host "127.0.0.1") eqn:E2;
      [exfalso; apply H2; now apply includes_spec |].
    reflexivity.
Qed.

Lemma api_token_is_guarded_by_host_substring_witness :
  getApiToken auth0
    (mkRequest None JUndefined JUndefined JUndefined
               (Some "my-localhost.example.org"%string) None "GET")
  = TokenJson (ACCESS_TOKEN auth0).
Proof.
  apply (api_token_is_guarded_by_host_substring auth0
           (mkRequest None JUndefined JUndefined JUndefined
                      (Some "my-localhost.example.org"%string) None "GET")).
  left. exists "my-"%string, ".example.org"%string. reflexivity.
Defined.

(** X21: the CORS middleware answers every [OPTIONS] request itself with
    200, before any route or credentials check, and lets every other request
    through, with or without an [Origin] header; it sets its four headers,
    echoing the origin and allowing credentials, exactly when there is an
    [Origin] header that contains ["localhost"] or ["127.0.0.1"] somewhere,
    and sets none otherwise. *)
Theorem cors_reflects_origins_containing_localhost (req : Request) :
  let headers := fst (corsMiddleware req) in
  let local (origin : string) :=
      (exists pre post, origin = (pre ++ "localhost" ++ post)%string) \/
      (exists pre post, origin = (pre ++ "127.0.0.1" ++ post)%string) in
  (snd (corsMiddleware req) =
   if (req_method req =? "OPTIONS")%string then Some Status200 else None) /\
  (forall origin, req_origin req = Some origin -> local origin ->
     headers =
     [("Access-Control-Allow-Origin", origin);
      ("Access-Control-Allow-Methods", "GET, POST, OPTIONS");
      ("Access-Control-Allow-Headers", "Content-Type, X-Emergent-Token");
      ("Access-Control-Allow-Credentials", "true")]%string) /\
  (forall origin, req_origin req = Some origin -> ~ local origin -> headers = []) /\
  (req_origin req = None -> headers = []).
Proof.
  cbv zeta. unfold corsMiddleware.
  split; [destruct (req_method req =? "OPTIONS")%string; reflexivity |].
  split; [| split].
  - intros origin Ho H. rewrite Ho.
    assert (Hinc : includes origin "localhost" || includes origin "127.0.0.1" = true).
    { apply orb_true_iff. destruct H as [H | H]; apply includes_spec in H; auto. }
    assert (Hne : (origin =? "")%string = false).
    { apply String.eqb_neq. intros ->.
      destruct H as [(pre & post & H) | (pre & post & H)];
        destruct pre; discriminate. }
    rewrite Hne, Hinc. cbn [negb andb].
    destruct (req_method req =? "OPTIONS")%string; reflexivity.
  - intros origin Ho H. rewrite Ho.
    destruct (includes origin "localhost") eqn:E1;
      [exfalso; apply H; left; now apply includes_spec |].
    destruct (includes origin "127.0.0.1") eqn:E2;
      [exfalso; apply H; right; now apply includes_spec |].
    rewrite andb_false_r.
    destruct (req_method req =? "OPTIONS")%string; reflexivity.
  - intros Ho. rewrite Ho.
    destruct (req_method req =? "OPTIONS")%string; reflexivity.
Qed.

Lemma cors_reflects_origins_containing_localhost_witness :
  let req := mkRequest None JUndefined JUndefined JUndefined None
                       (Some "https://localhost.example.org"%string) "OPTIONS" in
  let bare := mkRequest None JUndefined JUndefined JUndefined None None "OPTIONS" in
  snd (corsMiddleware req) = Some Status200 /\
  In ("Access-Control-Allow-Origin", "https://localhost.example.org")%string
     (fst (corsMiddleware req)) /\
  corsMiddleware bare = ([], Some Status200).
Proof.
  cbv zeta.
  destruct (cors_reflects_origins_containing_localhost
              (mkRequest None JUndefined JUndefined JUndefined None
                         (Some "https://localhost.example.org"%string) "OPTIONS"))
    as (H1 & H2 & _).
  destruct (cors_reflects_origins_containing_localhost
              (mkRequest None JUndefined JUndefined JUndefined None None "OPTIONS"))
    as (B1 & _ & _ & B2).
  split; [exact H1 |]. split.
  - rewrite (H2 "https://localhost.example.org"%string eq_refl).
    + now left.
    + left. exists "https://"%string, ".example.org"%string. reflexivity.
  - rewrite (surjective_pairing (corsMiddleware _)), B1, (B2 eq_refl). reflexivity.
Defined.

(** ** The token file *)

(** X22: with no token file, [loadOrCreateToken] returns a fresh 64-digit
    token and stores it; every later call, whatever its random source and
    clock, returns that same token, writes nothing and logs nothing. *)
Theorem token_persists_across_loads (env env' : FsEnv) :
  fs_writeThrows env = false ->
  fs_readThrows env' = false ->
  exists disk,
    loadOrCreateToken env None =
      (Returned (JStr (generateToken (fs_entropy env))), disk, []) /\
    disk = Some (FileJson (tokenData (generateToken (fs_entropy env)) (fs_now env))) /\
    loadOrCreateToken env' disk =
      (Returned (JStr (generateToken (fs_entropy env))), disk, []).
Proof.
  intros Hw Hr. eexists. unfold loadOrCreateToken, writeNewToken.
  rewrite Hw, Hr. repeat split.
Qed.

Lemma token_persists_across_loads_witness :
  exists disk,
    loadOrCreateToken (fs_quiet zero_entropy "2024-01-01T00:00:00.000Z") None =
      (Returned (JStr (string_repeat "0" 64)), disk, []) /\
    loadOrCreateToken (fs_quiet (fun _ => Byte.xff) "2024-06-01T00:00:00.000Z") disk =
      (Returned (JStr (string_repeat "0" 64)), disk, []).
Proof.
  destruct (token_persists_across_loads
              (fs_quiet zero_entropy "2024-01-01T00:00:00.000Z")
              (fs_quiet (fun _ => Byte.xff) "2024-06-01T00:00:00.000Z")
              eq_refl eq_refl) as (disk & H1 & _ & H2).
  exists disk. split; [exact H1 | exact H2].
Defined.

(** X23: a token file that cannot be read, is not JSON, or holds [null] is
    replaced: the error is logged once, a fresh token is generated, written
    over the file and returned, and the next load returns that token. *)
Theorem corrupt_token_file_is_replaced (env env' : FsEnv) (content : FileContent) :
  unreadable env content ->
  fs_writeThrows env = false ->
  fs_readThrows env' = false ->
  exists disk,
    loadOrCreateToken env (Some content) =
      (Returned (JStr (generateToken (fs_entropy env))), disk, [LogErrorLoadingToken]) /\
    disk = Some (FileJson (tokenData (generateToken (fs_entropy env)) (fs_now env))) /\
    loadOrCreateToken env' disk =
      (Returned (JStr (generateToken (fs_entropy env))), disk, []).
Proof.
  intros Hbad Hw Hr. eexists. unfold loadOrCreateToken, writeNewToken.
  rewrite Hw, Hr.
  destruct Hbad as [H | [-> | ->]]; [rewrite H | |].
  - repeat split.
  - destruct (fs_readThrows env); repeat split.
  - destruct (fs_readThrows env); repeat split.
Qed.

Lemma corrupt_token_file_is_replaced_witness :
  exists disk,
    loadOrCreateToken (fs_quiet zero_entropy "2024-01-01T00:00:00.000Z")
                      (Some FileNotJson) =
      (Returned (JStr (string_repeat "0" 64)), disk, [LogErrorLoadingToken]).
Proof.
  destruct (corrupt_token_file_is_replaced
              (fs_quiet zero_entropy "2024-01-01T00:00:00.000Z")
              (fs_quiet zero_entropy "2024-01-01T00:00:00.000Z")
              FileNotJson (or_intror (or_introl eq_refl)) eq_refl eq_refl)
    as (disk & H1 & _).
  exists disk. exact H1.
Defined.

(** X24: a token file that parses to anything but [null] is taken at its
    word: [loadOrCreateToken] returns what is under ["token"] unchecked,
    [undefined] when the key is missing or the JSON is a scalar or an array,
    and neither regenerates nor rewrites nor logs. *)
Theorem token_field_is_returned_unchecked (env : FsEnv) (data : JsVal) :
  fs_readThrows env = false ->
  data <> JNull -> data <> JUndefined ->
  loadOrCreateToken env (Some (FileJson data)) =
    (Returned (prop_of data "token"), Some (FileJson data), []) /\
  ((forall fs, data <> JObj fs) \/
   (exists fs, data = JObj fs /\ lookup_field "token" fs = JUndefined) ->
   loadOrCreateToken env (Some (FileJson data)) =
     (Returned JUndefined, Some (FileJson data), [])).
Proof.
  intros Hr Hnull Hundef. unfold loadOrCreateToken. rewrite Hr.
  assert (E : match data with
              | JNull | JUndefined => writeNewToken env [LogErrorLoadingToken] []
              | _ => (Returned (prop_of data "token"), Some (FileJson data), [])
              end = (Returned (prop_of data "token"), Some (FileJson data), [])).
  { destruct data; congruence. }
  split.
  - destruct data; try congruence; exact E.
  - intros H.
    assert (Hp : prop_of data "token" = JUndefined).
    { destruct H as [H | (fs & -> & H)]; [| exact H].
      destruct data; try reflexivity. exfalso. now apply (H fields). }
    rewrite <- Hp. destruct data; try congruence; exact E.
Qed.

Lemma token_field_is_returned_unchecked_witness :
  loadOrCreateToken (fs_quiet zero_entropy "2024-01-01T00:00:00.000Z")
                    (Some (FileJson (JObj [("createdAt", JStr "2023")]%string))) =
  (Returned JUndefined, Some (FileJson (JObj [("createdAt", JStr "2023")]%string)), []).
Proof.
  apply (token_field_is_returned_unchecked
           (fs_quiet zero_entropy "2024-01-01T00:00:00.000Z")
           (JObj [("createdAt", JStr "2023")]%string)); try discriminate.
  - reflexivity.
  - right. eexists. split; reflexivity.
Defined.

(** X25: [regenerateToken] replaces whatever the file held, readable or
    not: it writes and returns a fresh token and logs the regeneration, and
    the next start of the server loads exactly that token. *)
Theorem regenerated_token_is_the_one_loaded (env env' : FsEnv) (disk : Disk) :
  fs_writeThrows env = false ->
  fs_readThrows env' = false ->
  exists disk',
    regenerateToken env disk =
      (Returned (JStr (generateToken (fs_entropy env))), disk', [LogTokenRegenerated]) /\
    loadOrCreateToken env' disk' =
      (Returned (JStr (generateToken (fs_entropy env))), disk', []).
Proof.
  intros Hw Hr. eexists. unfold regenerateToken, loadOrCreateToken, writeNewToken.
  rewrite Hw, Hr. split; reflexivity.
Qed.

Lemma regenerated_token_is_the_one_loaded_witness :
  exists disk',
    regenerateToken (fs_quiet zero_entropy "2024-01-01T00:00:00.000Z")
                    (Some FileNotJson) =
      (Returned (JStr (string_repeat "0" 64)), disk', [LogTokenRegenerated]).
Proof.
  destruct (regenerated_token_is_the_one_loaded
              (fs_quiet zero_entropy "2024-01-01T00:00:00.000Z")
              (fs_quiet zero_entropy "2024-01-01T00:00:00.000Z")
              (Some FileNotJson) eq_refl eq_refl) as (disk' & H1 & _).
  exists disk'. exact H1.
Defined.

(** ** The credentials check of the WebSocket gateway *)

(** X26: a WebSocket upgrade whose URL carries the access token is
    registered whatever its cookies; an upgrade that carries neither the
    token nor the cookie of a stored session is closed with code 4001 and
    leaves the world exactly as it was: it is not registered and nothing
    else is sent. *)
Theorem upgrade_needs_token_or_session (a : Auth) (ws : WebSocket)
        (cookieHeader : option string) (tokenParam : option string) (w : World) :
  ~ In EmptyString (authenticatedSessions a) ->
  (tokenParam = Some (ACCESS_TOKEN a) ->
   onUpgrade a ws cookieHeader tokenParam w = onConnection ws true w /\
   In ws (clients (SHARED_SESSION (world_of (onUpgrade a ws cookieHeader tokenParam w))))) /\
  (tokenParam <> Some (ACCESS_TOKEN a) ->
   (forall sid, record_get "emergent_session" (parseCookies cookieHeader) = Some sid ->
                ~ In sid (authenticatedSessions a)) ->
   onUpgrade a ws cookieHeader tokenParam w = (Normal tt, w, [WsCloseCall ws 4001])).
Proof.
  intros Hne. unfold onUpgrade, wsAuthorized. split.
  - intros ->. rewrite String.eqb_refl. cbn [negb]. rewrite andb_false_r. cbn [negb].
    split; [reflexivity |].
    unfold onConnection. cbn. apply set_add_spec. now left.
  - intros Htp Hsid.
    assert (Hdiff : match tokenParam with
                    | Some t => negb (t =? ACCESS_TOKEN a)%string
                    | None => true
                    end = true).
    { destruct tokenParam as [t |]; [| reflexivity].
      apply negb_true_iff, String.eqb_neq. congruence. }
    rewrite Hdiff, andb_true_r, negb_involutive.
    assert (Hhas : sessions_has
                     match record_get "emergent_session" (parseCookies cookieHeader) with
                     | Some s => if (s =? "")%string then ""%string else s
                     | None => ""%string
                     end (authenticatedSessions a) = false).
    { apply not_true_is_false. rewrite sessions_has_In.
      destruct (record_get "emergent_session" (parseCookies cookieHeader)) as [s |];
        [| exact Hne].
      destruct (String.eqb_spec s ""); [exact Hne | now apply Hsid]. }
    rewrite Hhas. reflexivity.
Qed.

Lemma upgrade_needs_token_or_session_witness :
  onUpgrade auth0 5 (Some "emergent_session=00000000000000000000000000000000"%string)
            None world_one_client =
  (Normal tt, world_one_client, [WsCloseCall 5 4001]).
Proof.
  apply (upgrade_needs_token_or_session auth0 5
           (Some "emergent_session=00000000000000000000000000000000"%string)
           None world_one_client).
  - intros [].
  - discriminate.
  - intros sid _ [].
Defined.

